(** * The SSE stream parser of [test_streaming.py]

    A shallow embedding of [StreamingTester._parse_sse_stream],
    [StreamingTester._process_sse_line] and
    [StreamingTester._handle_json_data], together with a model of the
    parts of Python they rest on: the [str] methods they call and
    [json.loads]. *)

From Stdlib Require Import List Ascii String NArith ZArith Bool Arith Lia.
From Equations Require Import Equations.
Import ListNotations.

Local Open Scope N_scope.
#[local] Arguments N.eqb : simpl never.
#[local] Arguments N.leb : simpl never.
#[local] Arguments N.ltb : simpl never.

(** ** Python strings *)

(** A Python [str] is a sequence of Unicode code points. *)
Definition char := N.
Definition str := list char.

(** The code point of an ASCII character, and the [str] of an ASCII
    literal. *)
Definition ch (a : ascii) : char := N_of_ascii a.
Definition py (s : string) : str := map N_of_ascii (list_ascii_of_string s).

Definition LF : char := 10.
Definition CR : char := 13.
Definition SP : char := 32.
Definition DQUOTE : char := 34.
Definition BACKSLASH : char := 92.

Module Str.

(** [a == b] *)
Fixpoint eqb (a b : str) : bool :=
  match a, b with
  | [], [] => true
  | x :: a', y :: b' => (x =? y) && eqb a' b'
  | _, _ => false
  end.

(** [s.startswith(prefix)] *)
Fixpoint startswith (prefix s : str) : bool :=
  match prefix, s with
  | [], _ => true
  | p :: prefix', c :: s' => (p =? c) && startswith prefix' s'
  | _ :: _, [] => false
  end.

(** [sub in s] for strings *)
Fixpoint contains (sub s : str) : bool :=
  startswith sub s ||
  match s with
  | [] => false
  | _ :: s' => contains sub s'
  end.

(** [c in s] for a single character *)
Definition has (c : char) (s : str) : bool := existsb (N.eqb c) s.

(** [str.isspace] on one code point: the characters whose
    bidirectional class is WS, B or S, or whose category is Zs. *)
Definition isspace (c : char) : bool :=
  ((9 <=? c) && (c <=? 13)) || ((28 <=? c) && (c <=? 32))
  || (c =? 133) || (c =? 160) || (c =? 5760)
  || ((8192 <=? c) && (c <=? 8202))
  || (c =? 8232) || (c =? 8233) || (c =? 8239) || (c =? 8287)
  || (c =? 12288).

(** [s.lstrip(chars)], with the set of characters as a predicate *)
Fixpoint lstrip (drop : char -> bool) (s : str) : str :=
  match s with
  | c :: s' => if drop c then lstrip drop s' else s
  | [] => []
  end.

(** [s.rstrip(chars)] *)
Definition rstrip (drop : char -> bool) (s : str) : str :=
  rev (lstrip drop (rev s)).

(** [s.strip()] *)
Definition strip (s : str) : str := rstrip isspace (lstrip isspace s).

(** [s.replace(old, new)] for a non-empty [old]: occurrences are
    found from the left and do not overlap.  [skip] counts the
    characters of the occurrence just replaced that are still to be
    passed over. *)
Fixpoint replace_from (old new : str) (skip : nat) (s : str) : str :=
  match s with
  | [] => []
  | c :: s' =>
      match skip with
      | S k => replace_from old new k s'
      | O =>
          if startswith old s
          then new ++ replace_from old new (pred (List.length old)) s'
          else c :: replace_from old new O s'
      end
  end.

Definition replace (old new s : str) : str := replace_from old new O s.

(** [s.split(sep, 1)] for a one-character [sep], when [sep in s];
    [None] when [sep] does not occur. *)
Fixpoint split1 (sep : char) (s : str) : option (str * str) :=
  match s with
  | [] => None
  | c :: s' =>
      if c =? sep then Some ([], s')
      else match split1 sep s' with
           | Some (head, tail) => Some (c :: head, tail)
           | None => None
           end
  end.

(** [s] ends in a character of [drop]. *)
Definition ends_in (drop : char -> bool) (s : str) : bool :=
  match rev s with
  | c :: _ => drop c
  | [] => false
  end.

End Str.

(** ** JSON values and [json.loads] *)

(** A decoded JSON document.  An integer literal is a Python [int]; a
    literal with a fraction or an exponent, and the constants [NaN],
    [Infinity] and [-Infinity], are Python floats, kept as their
    lexeme.  An object is a [dict]: keys in insertion order, no key
    twice. *)
#[warnings="-register-all"]
Inductive json :=
| JNull
| JBool (b : bool)
| JInt (z : Z)
| JFloat (lexeme : str)
| JString (s : str)
| JArray (items : list json)
| JObject (pairs : list (str * json)).

Module Dict.

Definition dict := list (str * json).

(** [key in d] *)
Definition mem (key : str) (d : dict) : bool :=
  existsb (fun kv => Str.eqb (fst kv) key) d.

(** [d[key]], [None] for a [KeyError] *)
Fixpoint get (key : str) (d : dict) : option json :=
  match d with
  | [] => None
  | (k, v) :: d' => if Str.eqb k key then Some v else get key d'
  end.

(** [d[key] = v]: a key already present keeps its place *)
Fixpoint set (key : str) (v : json) (d : dict) : dict :=
  match d with
  | [] => [(key, v)]
  | (k, w) :: d' =>
      if Str.eqb k key then (k, v) :: d' else (k, w) :: set key v d'
  end.

End Dict.

(** [json.loads] is modelled as a pushdown recogniser that reads the
    text one character at a time: the grammar of RFC 8259 with the
    three constants Python adds, and strings decoded as Python's strict
    scanner decodes them.  The only error of the model is
    [json.JSONDecodeError]: it is [json.loads] on the texts on which
    the interpreter raises neither [ValueError] (an integer literal of
    too many digits) nor [RecursionError] (too deep a nesting), those
    that are [within_limits] below.  A statement that a text is
    decoded, or is not JSON, holds of the program on such texts
    only. *)
Module Json.

(** A container that is being read. *)
Inductive frame :=
| FArray (items : list json)                 (* [[ items , ...] *)
| FObject (pairs : Dict.dict)                (* [{ pairs , ...] *)
| FMember (pairs : Dict.dict) (key : str).   (* [{ pairs , key : ...] *)

(** Where the scanner is inside a string literal. *)
Inductive strpos :=
| SChars                            (* between characters *)
| SEscape                           (* after a backslash *)
| SHex (k : nat) (u : N)            (* [k] digits of a [\uXXXX] read *)
| SHigh (h : N)                     (* after a high surrogate escape *)
| SHighEscape (h : N)               (* ... and a backslash *)
| SHighHex (h : N) (k : nat) (u : N). (* ... and [k] digits of the next *)

(** Where the scanner is inside a number literal. *)
Inductive numpos :=
| NMinus | NZero | NInt | NDot | NFrac | NExp | NExpSign | NExpDigits.

Inductive mode :=
| MValue                              (* a value is expected *)
| MArrayOpen                          (* after [[] *)
| MObjectOpen                         (* after [{] *)
| MKey                                (* after [,] in an object *)
| MKeyString (acc : str) (p : strpos) (* inside a member name *)
| MColon (key : str)                  (* after a member name *)
| MString (acc : str) (p : strpos)    (* inside a string value *)
| MNumber (lexeme : str) (p : numpos) (* inside a number *)
| MLiteral (rest : str) (v : json)    (* inside a constant *)
| MNext.                              (* after a value in a container *)

Inductive state :=
| Scanning (stack : list frame) (m : mode)
| Done (v : json)
| Failed.

Definition is_ws (c : char) : bool :=
  (c =? SP) || (c =? 9) || (c =? LF) || (c =? CR).

Definition is_digit (c : char) : bool := (48 <=? c) && (c <=? 57).

Definition hexval (c : char) : option N :=
  if (48 <=? c) && (c <=? 57) then Some (c - 48)
  else if (97 <=? c) && (c <=? 102) then Some (c - 87)
  else if (65 <=? c) && (c <=? 70) then Some (c - 55)
  else None.

Definition is_high (u : N) : bool := (55296 <=? u) && (u <=? 56319).
Definition is_low (u : N) : bool := (56320 <=? u) && (u <=? 57343).
Definition join (h l : N) : N :=
  65536 + N.lor (N.shiftl (h - 55296) 10) (l - 56320).

(** The value of a run of decimal digits. *)
Definition digits_value (ds : str) : Z :=
  fold_left (fun acc d => (10 * acc + Z.of_N (d - 48))%Z) ds 0%Z.

(** The value of a complete number literal. *)
Definition number_value (lexeme : str) (p : numpos) : json :=
  match p with
  | NZero | NInt =>
      match lexeme with
      | c :: ds =>
          if c =? ch "-" then JInt (- digits_value ds) else JInt (digits_value lexeme)
      | [] => JInt 0
      end
  | _ => JFloat lexeme
  end.

Definition number_ends (p : numpos) : bool :=
  match p with
  | NZero | NInt | NFrac | NExpDigits => true
  | _ => false
  end.

(** A value [v] has been read in the context [stack]. *)
Definition complete (v : json) (stack : list frame) : state :=
  match stack with
  | [] => Done v
  | FArray items :: stack' => Scanning (FArray (items ++ [v]) :: stack') MNext
  | FMember pairs key :: stack' =>
      Scanning (FObject (Dict.set key v pairs) :: stack') MNext
  | FObject _ :: _ => Failed
  end.

(** One character of a string literal; [inl] continues, [inr] is
    the decoded string at its closing quote, [None] an error. *)
Definition in_chars (acc : str) (c : char) : option (str * strpos + str) :=
  if c =? DQUOTE then Some (inr acc)
  else if c =? BACKSLASH then Some (inl (acc, SEscape))
  else if c <? 32 then None
  else Some (inl (acc ++ [c], SChars)).

Definition after_hex (acc : str) (u : N) : str * strpos :=
  if is_high u then (acc, SHigh u) else (acc ++ [u], SChars).

Definition in_escape (acc : str) (c : char) : option (str * strpos + str) :=
  if (c =? DQUOTE) || (c =? BACKSLASH) || (c =? ch "/")
  then Some (inl (acc ++ [c], SChars))
  else if c =? ch "b" then Some (inl (acc ++ [8], SChars))
  else if c =? ch "f" then Some (inl (acc ++ [12], SChars))
  else if c =? ch "n" then Some (inl (acc ++ [10], SChars))
  else if c =? ch "r" then Some (inl (acc ++ [13], SChars))
  else if c =? ch "t" then Some (inl (acc ++ [9], SChars))
  else if c =? ch "u" then Some (inl (acc, SHex 0 0))
  else None.

Definition string_step (acc : str) (p : strpos) (c : char)
  : option (str * strpos + str) :=
  match p with
  | SChars => in_chars acc c
  | SEscape => in_escape acc c
  | SHex k u =>
      match hexval c with
      | Some d =>
          if (k =? 3)%nat then Some (inl (after_hex acc (16 * u + d)))
          else Some (inl (acc, SHex (S k) (16 * u + d)))
      | None => None
      end
  | SHigh h =>
      if c =? BACKSLASH then Some (inl (acc, SHighEscape h))
      else in_chars (acc ++ [h]) c
  | SHighEscape h =>
      if c =? ch "u" then Some (inl (acc, SHighHex h 0 0))
      else in_escape (acc ++ [h]) c
  | SHighHex h k u =>
      match hexval c with
      | Some d =>
          if (k =? 3)%nat then
            if is_low (16 * u + d)
            then Some (inl (acc ++ [join h (16 * u + d)], SChars))
            else Some (inl (after_hex (acc ++ [h]) (16 * u + d)))
          else Some (inl (acc, SHighHex h (S k) (16 * u + d)))
      | None => None
      end
  end.

(** The first character of a value. *)
Definition value_start (stack : list frame) (c : char) : state :=
  if is_ws c then Scanning stack MValue
  else if c =? DQUOTE then Scanning stack (MString [] SChars)
  else if c =? ch "{" then Scanning (FObject [] :: stack) MObjectOpen
  else if c =? ch "[" then Scanning (FArray [] :: stack) MArrayOpen
  else if c =? ch "n" then Scanning stack (MLiteral (py "ull") JNull)
  else if c =? ch "t" then Scanning stack (MLiteral (py "rue") (JBool true))
  else if c =? ch "f" then Scanning stack (MLiteral (py "alse") (JBool false))
  else if c =? ch "N" then Scanning stack (MLiteral (py "aN") (JFloat (py "NaN")))
  else if c =? ch "I"
  then Scanning stack (MLiteral (py "nfinity") (JFloat (py "Infinity")))
  else if c =? ch "-" then Scanning stack (MNumber [c] NMinus)
  else if c =? ch "0" then Scanning stack (MNumber [c] NZero)
  else if is_digit c then Scanning stack (MNumber [c] NInt)
  else Failed.

(** The character after a value. *)
Definition value_next (s : state) (c : char) : state :=
  match s with
  | Done v => if is_ws c then Done v else Failed
  | Scanning stack MNext =>
      if is_ws c then s
      else
        match stack with
        | FArray items :: stack' =>
            if c =? ch "," then Scanning stack MValue
            else if c =? ch "]" then complete (JArray items) stack'
            else Failed
        | FObject pairs :: stack' =>
            if c =? ch "," then Scanning stack MKey
            else if c =? ch "}" then complete (JObject pairs) stack'
            else Failed
        | _ => Failed
        end
  | _ => Failed
  end.

Definition number_step (stack : list frame) (lexeme : str) (p : numpos)
  (c : char) : state :=
  let more q := Scanning stack (MNumber (lexeme ++ [c]) q) in
  let is_e := (c =? ch "e") || (c =? ch "E") in
  let finish := value_next (complete (number_value lexeme p) stack) c in
  match p with
  | NMinus =>
      if c =? ch "0" then more NZero
      else if is_digit c then more NInt
      else if c =? ch "I"
      then Scanning stack (MLiteral (py "nfinity") (JFloat (py "-Infinity")))
      else Failed
  | NZero =>
      if c =? ch "." then more NDot
      else if is_e then more NExp
      else finish
  | NInt =>
      if is_digit c then more NInt
      else if c =? ch "." then more NDot
      else if is_e then more NExp
      else finish
  | NDot => if is_digit c then more NFrac else Failed
  | NFrac =>
      if is_digit c then more NFrac
      else if is_e then more NExp
      else finish
  | NExp =>
      if is_digit c then more NExpDigits
      else if (c =? ch "+") || (c =? ch "-") then more NExpSign
      else Failed
  | NExpSign => if is_digit c then more NExpDigits else Failed
  | NExpDigits => if is_digit c then more NExpDigits else finish
  end.

Definition step (s : state) (c : char) : state :=
  match s with
  | Scanning stack MValue => value_start stack c
  | Scanning stack MArrayOpen =>
      if is_ws c then s
      else if c =? ch "]" then
        match stack with
        | FArray items :: stack' => complete (JArray items) stack'
        | _ => Failed
        end
      else value_start stack c
  | Scanning stack MObjectOpen =>
      if is_ws c then s
      else if c =? ch "}" then
        match stack with
        | FObject pairs :: stack' => complete (JObject pairs) stack'
        | _ => Failed
        end
      else if c =? DQUOTE then Scanning stack (MKeyString [] SChars)
      else Failed
  | Scanning stack MKey =>
      if is_ws c then s
      else if c =? DQUOTE then Scanning stack (MKeyString [] SChars)
      else Failed
  | Scanning stack (MKeyString acc p) =>
      match string_step acc p c with
      | Some (inl (acc', p')) => Scanning stack (MKeyString acc' p')
      | Some (inr key) => Scanning stack (MColon key)
      | None => Failed
      end
  | Scanning stack (MColon key) =>
      if is_ws c then s
      else if c =? ch ":" then
        match stack with
        | FObject pairs :: stack' => Scanning (FMember pairs key :: stack') MValue
        | _ => Failed
        end
      else Failed
  | Scanning stack (MString acc p) =>
      match string_step acc p c with
      | Some (inl (acc', p')) => Scanning stack (MString acc' p')
      | Some (inr s') => complete (JString s') stack
      | None => Failed
      end
  | Scanning stack (MNumber lexeme p) => number_step stack lexeme p c
  | Scanning stack (MLiteral rest v) =>
      match rest with
      | x :: rest' =>
          if c =? x then
            match rest' with
            | [] => complete v stack
            | _ :: _ => Scanning stack (MLiteral rest' v)
            end
          else Failed
      | [] => Failed
      end
  | Scanning _ MNext | Done _ => value_next s c
  | Failed => Failed
  end.

(** The end of the text. *)
Definition finish (s : state) : option json :=
  match s with
  | Done v => Some v
  | Scanning [] (MNumber lexeme p) =>
      if number_ends p then Some (number_value lexeme p) else None
  | _ => None
  end.

(** [json.loads(text)]; [None] stands for [json.JSONDecodeError]. *)
Definition loads (text : str) : option json :=
  finish (fold_left step text (Scanning [] MValue)).

(** No constant has a carriage return in it: an invariant of the
    states the scanner reaches. *)
Definition literal_ok (s : state) : bool :=
  match s with
  | Scanning _ (MLiteral rest _) => negb (Str.has CR rest)
  | _ => true
  end.

End Json.

(** ** Output and exceptions *)

(** What [_handle_json_data] shows of the value it is given: the
    branch it takes, with the value it prints there. *)
Inductive shown :=
| Content (content : json)     (* ['content' in data] *)
| Message (message : json)     (* ['message' in data] *)
| Error (error : json)         (* ['error' in data] *)
| Data.                        (* the [else] branch: [json.dumps(data)] *)

Inductive exn := TypeError | KeyError.

(** One printed item of the parser, in the vocabulary of the
    specification's Decoded Events.  A comment line prints nothing.
    Printing itself is taken to succeed: [emit] is [print] on what the
    terminal can encode ([encodable], [shown_printable] below), not on
    a str with a lone surrogate, on which [print] raises. *)
Inductive event :=
| EventName (event_type : str)                 (* line 123 *)
| Terminator                                   (* line 135 *)
| StructuredPayload (data : json) (s : shown)  (* lines 161, 166, 170, 174 *)
| TextPayload (text : str)                     (* line 146 *)
| RawLine (line : str)                         (* line 152 *)
| StreamError (e : exn).                       (* line 112 *)

(** A computation prints events and then returns or raises. *)
Inductive result (A : Type) :=
| Returned (a : A)
| Raised (e : exn).
Arguments Returned {A} a.
Arguments Raised {A} e.

Definition M (A : Type) : Type := list event * result A.

Definition ret {A} (a : A) : M A := ([], Returned a).
Definition raise {A} (e : exn) : M A := ([], Raised e).
Definition emit (e : event) : M unit := ([e], Returned tt).

Definition bind {A B} (m : M A) (k : A -> M B) : M B :=
  match m with
  | (out, Returned a) => let (out', r) := k a in (out ++ out', r)
  | (out, Raised e) => (out, Raised e)
  end.

(** [try: m except Exception as e: handler(e)] *)
Definition try_except {A} (m : M A) (handler : exn -> M A) : M A :=
  match m with
  | (out, Raised e) => let (out', r) := handler e in (out ++ out', r)
  | _ => m
  end.

Declare Scope py_scope.
Delimit Scope py_scope with py.
Notation "x <- m ;; k" := (bind m (fun x => k))
  (at level 61, m at next level, right associativity) : py_scope.
Notation "m ;; k" := (bind m (fun _ => k))
  (at level 61, right associativity) : py_scope.
Local Open Scope py_scope.

(** ** [StreamingTester._handle_json_data] *)

(** [key in data], for a string [key] and a decoded JSON value: key
    membership in a dict, element membership in a list, substring in a
    str; the other types are not containers. *)
Definition py_in (key : str) (data : json) : M bool :=
  match data with
  | JObject d => ret (Dict.mem key d)
  | JArray items =>
      ret (existsb (fun x => match x with
                             | JString s => Str.eqb s key
                             | _ => false
                             end) items)
  | JString s => ret (Str.contains key s)
  | JNull | JBool _ | JInt _ | JFloat _ => raise TypeError
  end.

(** [data[key]] for a string [key] *)
Definition getitem (data : json) (key : str) : M json :=
  match data with
  | JObject d =>
      match Dict.get key d with
      | Some v => ret v
      | None => raise KeyError
      end
  | _ => raise TypeError
  end.

Definition _handle_json_data (data : json) : M unit :=
  has_content <- py_in (py "content") data ;;
  if has_content then
    content <- getitem data (py "content") ;;
    emit (StructuredPayload data (Content content))
  else
    has_message <- py_in (py "message") data ;;
    if has_message then
      message <- getitem data (py "message") ;;
      emit (StructuredPayload data (Message message))
    else
      has_error <- py_in (py "error") data ;;
      if has_error then
        error <- getitem data (py "error") ;;
        emit (StructuredPayload data (Error error))
      else
        emit (StructuredPayload data Data).

(** ** [StreamingTester._process_sse_line] *)

Definition is_empty (s : str) : bool :=
  match s with [] => true | _ :: _ => false end.

(** Lines 128 to 131: the payload of a [data:] line. *)
Definition data_payload (line : str) : str :=
  let raw := skipn 5 line in
  let raw := if Str.startswith (py " ") raw then skipn 1 raw else raw in
  raw.

(** Line 139: [data.replace('\\n', '\n')] *)
Definition unescape (data : str) : str :=
  Str.replace [BACKSLASH; ch "n"] [LF] data.

Definition _process_sse_line (line : str) : M unit :=
  if is_empty (Str.strip line) then ret tt
  else if Str.startswith (py "event:") line then
    let event_type := Str.strip (skipn 6 line) in
    emit (EventName event_type)
  else if Str.startswith (py "data:") line then
    let data := data_payload line in
    if Str.eqb data (py "[DONE]") then emit Terminator
    else
      let text := unescape data in
      match Json.loads text with
      | Some parsed => _handle_json_data parsed
      | None => emit (TextPayload text)
      end
  else if Str.startswith (py ":") line then ret tt
  else emit (RawLine line).

(** ** [StreamingTester._parse_sse_stream] *)

Definition is_cr (c : char) : bool := c =? CR.

Definition inspect {A} (a : A) : {b : A | a = b} := exist _ a eq_refl.

(** Lines 107 to 109: the [while] loop, which returns the buffer it
    leaves. *)
Equations? process_lines (buffer : str) : M str by wf (List.length buffer) lt :=
  process_lines buffer with inspect (Str.split1 LF buffer) := {
    | exist _ (Some (line, rest)) _ =>
        _process_sse_line (Str.rstrip is_cr line) ;;
        process_lines rest
    | exist _ None _ => ret buffer }.
Proof.
  clear process_lines.
  revert line rest e. induction buffer as [|c s IH]; simpl; intros line rest H.
  - discriminate.
  - destruct (c =? LF).
    + inversion H; subst. lia.
    + destruct (Str.split1 LF s) as [[h t]|] eqn:E; inversion H; subst.
      specialize (IH _ _ eq_refl). lia.
Qed.

(** Lines 103 to 109: the body of the [for] loop, one chunk fed to
    the buffer. *)
Definition feed (buffer chunk : str) : M str :=
  if is_empty chunk then ret buffer
  else process_lines (buffer ++ chunk).

(** Lines 102 to 109: the [for] loop over the chunks of the
    response. *)
Fixpoint for_chunks (chunks : list str) (buffer : str) : M str :=
  match chunks with
  | [] => ret buffer
  | chunk :: chunks' =>
      buffer' <- feed buffer chunk ;;
      for_chunks chunks' buffer'
  end.

(** The whole function, on the chunks [response.iter_content] yields;
    the result is everything it prints. *)
Definition _parse_sse_stream (chunks : list str) : list event :=
  fst (try_except (for_chunks chunks [] ;; ret tt)
                  (fun e => emit (StreamError e))).

(** ** Notions used in the statements *)

(** The part of [s] after its last [sep]. *)
Fixpoint tail_after (sep : char) (s : str) : str :=
  match s with
  | [] => []
  | _ :: s' => if Str.has sep s then tail_after sep s' else s
  end.

(** The lines of [s] that are complete, in order, each without its
    newline; [cur] is the beginning of the first one. *)
Fixpoint complete_lines (cur s : str) : list str :=
  match s with
  | [] => []
  | c :: s' =>
      if c =? LF then cur :: complete_lines [] s'
      else complete_lines (cur ++ [c]) s'
  end.

(** [_process_sse_line] on each line of a list, until one raises. *)
Fixpoint for_lines (lines : list str) : M unit :=
  match lines with
  | [] => ret tt
  | line :: lines' =>
      _process_sse_line (Str.rstrip is_cr line) ;; for_lines lines'
  end.

(** The sub-dispatch of a structured payload, as the specification
    words it: the first of [content], [message] and [error] that is a
    key of the object decides, and its value is what is shown. *)
Definition sub_dispatch (d : Dict.dict) : shown :=
  match Dict.get (py "content") d with
  | Some content => Content content
  | None =>
      match Dict.get (py "message") d with
      | Some message => Message message
      | None =>
          match Dict.get (py "error") d with
          | Some error => Error error
          | None => Data
          end
      end
  end.

(** ** Literals for examples *)

(** An ASCII literal in which an apostrophe stands for a double
    quote. *)
Definition pyq (s : string) : str :=
  map (fun c => if c =? ch "'" then DQUOTE else c) (py s).

(** ** Notions used in the further properties *)

(** The three names [_handle_json_data] looks for. *)
Definition shown_names : list str := [py "content"; py "message"; py "error"].

(** The values on which [_handle_json_data] raises: those that are
    not containers, a list one of whose elements is one of the three
    names, and a str of which one of the three names is a part. *)
Definition raises_type_error (data : json) : bool :=
  match data with
  | JObject _ => false
  | JArray items =>
      existsb (fun key =>
                 existsb (fun x => match x with
                                   | JString s => Str.eqb s key
                                   | _ => false
                                   end) items) shown_names
  | JString s => existsb (fun key => Str.contains key s) shown_names
  | JNull | JBool _ | JInt _ | JFloat _ => true
  end.

Definition is_stream_error (e : event) : bool :=
  match e with StreamError _ => true | _ => false end.

(** No item of [out] is the report of line 112. *)
Definition decoded_only (out : list event) : bool :=
  forallb (fun e => negb (is_stream_error e)) out.

(** [s] with a carriage return put before each newline. *)
Definition crlf (s : str) : str :=
  flat_map (fun c => if c =? LF then [CR; LF] else [c]) s.

(** ** [StreamingTester.__init__] *)

Definition is_slash (c : char) : bool := c =? ch "/".

(** The two things the other methods use of a tester: its base URL
    and the [Authorization] header of its session, when one was
    set. *)
Record StreamingTester := {
  base_url : str;
  authorization : option str
}.

Definition __init__ (url : str) (auth_token : option str) : StreamingTester :=
  {| base_url := Str.rstrip is_slash url;
     authorization :=
       match auth_token with
       | Some token =>
           if is_empty token then None else Some (py "Bearer " ++ token)
       | None => None
       end |}.

(** Lines 55 and 63: [f"{self.base_url}/copilot"] *)
Definition copilot_url (self : StreamingTester) : str :=
  base_url self ++ py "/copilot".

(** ** [StreamingTester.test_streaming_endpoint] *)

(** The arguments of the method. *)
Record arguments := {
  query : str;
  model : str;
  user_id : str;
  session_id : str;
  save_chat : bool;
  system_prompt : option str;
  include_history : bool;
  rag_db : option str;
  num_docs : option Z;
  image : option str;
  enhanced_prompt : option str
}.

(** Lines 40 to 53: the request payload. *)
Definition request_payload (a : arguments) : Dict.dict :=
  let payload :=
    [ (py "query", JString (query a));
      (py "model", JString (model a));
      (py "user_id", JString (user_id a));
      (py "stream", JBool true);
      (py "save_chat", JBool false);
      (py "include_history", JBool true) ] in
  let payload :=
    if is_empty (session_id a) then payload
    else Dict.set (py "session_id") (JString (session_id a)) payload in
  let payload :=
    match system_prompt a with
    | Some prompt =>
        if is_empty prompt then payload
        else Dict.set (py "system_prompt") (JString prompt) payload
    | None => payload
    end in
  payload.

(** What the transport, the keyboard or the interpreter can raise in
    the method, by the classes the [except] clauses name. *)
Inductive raised :=
| ConnectTimeout        (* a [Timeout] that is a [ConnectionError] too *)
| ReadTimeout           (* any other [Timeout] *)
| ConnectionError       (* a [ConnectionError] that is no [Timeout] *)
| OtherException        (* any other [Exception] *)
| KeyboardInterrupt
| OtherBaseException.   (* not an [Exception]: [SystemExit] and the like *)

Definition isinstance_Timeout (x : raised) : bool :=
  match x with ConnectTimeout | ReadTimeout => true | _ => false end.

Definition isinstance_ConnectionError (x : raised) : bool :=
  match x with ConnectTimeout | ConnectionError => true | _ => false end.

Definition isinstance_KeyboardInterrupt (x : raised) : bool :=
  match x with KeyboardInterrupt => true | _ => false end.

Definition isinstance_Exception (x : raised) : bool :=
  match x with KeyboardInterrupt | OtherBaseException => false | _ => true end.

(** What the server answers to the request: its status, its body as
    [response.text] reads it (or what reading it raises), and its body
    as [response.iter_content] yields it: some chunks, and then the
    end of the body or an exception. *)
Record response := {
  status_code : Z;
  text : str + raised;
  chunks : list str;
  failure : option raised
}.

(** What [self.session.post] does: it returns a response or raises. *)
Inductive post_outcome :=
| Responds (r : response)
| Fails (x : raised).

(** What the program does that can be seen from outside: the request
    it posts, and what it prints. *)
Inductive action :=
| Testing (url query model : str)           (* lines 55 to 58 *)
| Post (url : str) (payload : Dict.dict)
       (authorization : option str)         (* lines 62 to 72 *)
| HttpError (status_code : Z)               (* line 76 *)
| ResponseText (text : str)                 (* line 77 *)
| Connected                                 (* lines 80 and 81 *)
| Decoded (e : event)                       (* [_parse_sse_stream] *)
| StreamFailure (x : raised)                (* line 112 *)
| TimedOut                                  (* line 87 *)
| ConnectionFailed                          (* line 89 *)
| Interrupted                               (* line 91 *)
| Unexpected (x : raised)                   (* line 93 *)
| Greeting                                  (* lines 192 and 193 *)
| Prompt                                    (* line 200 *)
| StreamStart                               (* line 210 *)
| StreamEnd                                 (* line 218 *)
| Bye.                                      (* line 223 *)

(** A run: what it does, and what it raises if it does not
    return. *)
Definition run : Type := list action * option raised.

Definition and_then (out : list action) (r : run) : run :=
  (out ++ fst r, snd r).

(** Lines 86 to 93: the [except] clauses, in their order. *)
Definition except_clauses (x : raised) : run :=
  if isinstance_Timeout x then ([TimedOut], None)
  else if isinstance_ConnectionError x then ([ConnectionFailed], None)
  else if isinstance_KeyboardInterrupt x then ([Interrupted], None)
  else if isinstance_Exception x then ([Unexpected x], None)
  else ([], Some x).

(** [_parse_sse_stream] on a response whose iteration may raise:
    the [for] loop of lines 102 to 109 on the chunks, then the
    exception of the iterator, if any; line 111 catches every
    [Exception], that of a line as that of the iterator. *)
Definition parse_sse_response (r : response) : run :=
  match for_chunks (chunks r) [] with
  | (out, Raised e) => (map Decoded (out ++ [StreamError e]), None)
  | (out, Returned _) =>
      match failure r with
      | None => (map Decoded out, None)
      | Some x =>
          if isinstance_Exception x
          then (map Decoded out ++ [StreamFailure x], None)
          else (map Decoded out, Some x)
      end
  end.

(** Lines 55 to 93, given what the network does. *)
Definition test_streaming_endpoint
  (self : StreamingTester) (a : arguments) (net : post_outcome) : run :=
  and_then [Testing (copilot_url self) (query a) (model a);
            Post (copilot_url self) (request_payload a) (authorization self)]
    match net with
    | Fails x => except_clauses x
    | Responds r =>
        if negb (status_code r =? 200)%Z then
          and_then [HttpError (status_code r)]
            match text r with
            | inl body => ([ResponseText body], None)
            | inr x => except_clauses x
            end
        else
          and_then [Connected]
            match parse_sse_response r with
            | (out, Some x) => and_then out (except_clauses x)
            | (out, None) => (out, None)
            end
    end.

(** ** [main] *)

From Stdlib Require DecimalString.

(** [str(n)] for an [int] *)
Definition str_of_int (n : Z) : str :=
  py (DecimalString.NilZero.string_of_int (Z.to_int n)).

(** The command line, as [argparse] hands it over. *)
Record command_line := {
  arg_base_url : str;
  arg_auth_token : option str;
  arg_model : str;
  arg_user_id : str
}.

(** What [input] gives at one prompt: a line, with what the network
    does if the line is sent as a query, or a [KeyboardInterrupt].
    The end of the list is the end of the input, [EOFError]. *)
Inductive typed :=
| Line (user_query : str) (net : post_outcome)
| CtrlC.

Section Main.

(** [str.lower] *)
Variable lower : str -> str.

(** Line 203 *)
Definition quits (user_query : str) : bool :=
  existsb (Str.eqb (lower (Str.strip user_query)))
          [py "exit"; py "quit"; py "q"].

(** Lines 211 to 217: the arguments of the call, the others at
    their defaults. *)
Definition call_arguments
  (args : command_line) (session : str) (user_query : str) : arguments :=
  {| query := user_query;
     model := arg_model args;
     user_id := arg_user_id args;
     session_id := session;
     save_chat := false;
     system_prompt := None;
     include_history := true;
     rag_db := None;
     num_docs := None;
     image := None;
     enhanced_prompt := None |}.

(** Lines 198 to 218: the [while] loop. *)
Fixpoint interactive_loop
  (args : command_line) (tester : StreamingTester) (session : str)
  (keys : list typed) : run :=
  and_then [Prompt]
    match keys with
    | [] => ([], None)
    | CtrlC :: _ => ([], Some KeyboardInterrupt)
    | Line user_query net :: keys' =>
        if quits user_query then ([], None)
        else if is_empty (Str.strip user_query)
        then interactive_loop args tester session keys'
        else
          and_then [StreamStart]
            match
              test_streaming_endpoint
                tester (call_arguments args session user_query) net
            with
            | (out, Some x) => (out, Some x)
            | (out, None) =>
                and_then (out ++ [StreamEnd])
                         (interactive_loop args tester session keys')
            end
    end.

(** Lines 190 to 223, from the parsed command line; [now] is
    [int(time.time())]. *)
Definition main (args : command_line) (now : Z) (keys : list typed) : run :=
  let tester := __init__ (arg_base_url args) (arg_auth_token args) in
  and_then [Greeting]
    (let session := py "test-session-" ++ str_of_int now in
     match interactive_loop args tester session keys with
     | (out, Some x) =>
         if isinstance_KeyboardInterrupt x then (out ++ [Bye], None)
         else (out, Some x)
     | (out, None) => (out ++ [Bye], None)
     end).

(** The lines that are sent as queries: those typed before the
    first quit word or interrupt that are not blank. *)
Fixpoint sent_lines (keys : list typed) : list str :=
  match keys with
  | [] => []
  | CtrlC :: _ => []
  | Line user_query _ :: keys' =>
      if quits user_query then []
      else if forallb Str.isspace user_query then sent_lines keys'
      else user_query :: sent_lines keys'
  end.

End Main.

(** The payloads of the requests of a run, in order. *)
Definition posted (out : list action) : list Dict.dict :=
  flat_map (fun a => match a with
                     | Post _ payload _ => [payload]
                     | _ => []
                     end) out.

(** Nothing that is no [Exception] and no [KeyboardInterrupt] is
    raised while the line is sent. *)
Definition survivable (x : raised) : bool :=
  match x with OtherBaseException => false | _ => true end.

Definition quiet (net : post_outcome) : bool :=
  match net with
  | Fails x => survivable x
  | Responds r =>
      match text r with inr x => survivable x | inl _ => true end
      && match failure r with Some x => survivable x | None => true end
  end.

Definition all_quiet (keys : list typed) : bool :=
  forallb (fun k => match k with Line _ net => quiet net | CtrlC => true end)
          keys.

(** [str.lower] on a str of ASCII characters, for examples. *)
Definition lower_ascii (s : str) : str :=
  map (fun c => if (65 <=? c) && (c <=? 90) then c + 32 else c) s.

(** ** The limits of the interpreter and of the terminal *)

(** [Json.loads] is [json.loads] on the texts that stay within the
    limits of the interpreter.  Past them [json.loads] raises what is
    no [JSONDecodeError]: a [ValueError] on an integer literal of more
    than [sys.get_int_max_str_digits()] digits, a [RecursionError]
    when arrays and objects are nested deeper than the recursion limit
    leaves room for.  The two bounds below are within the defaults of
    CPython: 4300 digits, and a recursion limit of 1000, of which the
    calls of the program use a few. *)
Definition int_max_str_digits : nat := 4300.
Definition nesting_limit : nat := 900.

(** The longest run of decimal digits of [text]; [run] is the length
    of the run that ends where [text] starts. *)
Fixpoint max_digit_run (run : nat) (text : str) : nat :=
  match text with
  | [] => run
  | c :: text' =>
      if Json.is_digit c then max_digit_run (S run) text'
      else Nat.max run (max_digit_run O text')
  end.

(** The number of containers that are open in a state of the
    scanner. *)
Definition open_containers (s : Json.state) : nat :=
  match s with
  | Json.Scanning stack _ => List.length stack
  | _ => O
  end.

(** The deepest nesting the scanner reaches on [text] from [s]. *)
Fixpoint deepest (s : Json.state) (text : str) : nat :=
  match text with
  | [] => open_containers s
  | c :: text' => Nat.max (open_containers s) (deepest (Json.step s c) text')
  end.

Definition nesting (text : str) : nat :=
  deepest (Json.Scanning [] Json.MValue) text.

Definition within_limits (text : str) : bool :=
  (max_digit_run O text <=? int_max_str_digits)%nat
  && (nesting text <=? nesting_limit)%nat.

(** [print] encodes what it prints for the terminal, and raises a
    [UnicodeEncodeError] on a lone surrogate, which UTF-8 cannot
    encode.  [emit] is [print] on what can be encoded. *)
Definition is_surrogate (c : char) : bool := (55296 <=? c) && (c <=? 57343).

Definition encodable (s : str) : bool := negb (existsb is_surrogate s).

(** Whether [str(v)] can be encoded: the [repr] of a list or a dict
    escapes the surrogates of the strings inside, a str is printed as
    it is. *)
Definition printable (v : json) : bool :=
  match v with
  | JString s => encodable s
  | _ => true
  end.

(** Whether what [_handle_json_data] prints can be encoded;
    [json.dumps] gives ASCII only. *)
Definition shown_printable (s : shown) : bool :=
  match s with
  | Content v | Message v | Error v => printable v
  | Data => true
  end.

(** * Properties *)

(** ** The output monad *)

Section MonadLaws.

Context {A B C : Type}.

Lemma bind_ret_l (a : A) (k : A -> M B) : bind (ret a) k = k a.
Proof. unfold bind, ret. destruct (k a). reflexivity. Qed.

Lemma bind_ret_r (m : M A) : bind m ret = m.
Proof.
  destruct m as [out [a|e]]; unfold bind, ret; simpl;
    rewrite ?app_nil_r; reflexivity.
Qed.

Lemma bind_assoc (m : M A) (k : A -> M B) (h : B -> M C) :
  bind (bind m k) h = bind m (fun a => bind (k a) h).
Proof.
  destruct m as [out [a|e]]; simpl; [|reflexivity].
  destruct (k a) as [out1 [b|e]]; simpl; [|reflexivity].
  destruct (h b) as [out2 r]. rewrite app_assoc. reflexivity.
Qed.

(** Two continuations that agree on the value [m] returns give the
    same computation. *)
Lemma bind_ext_on (m : M A) (k k' : A -> M B) :
  (forall out a, m = (out, Returned a) -> k a = k' a) ->
  bind m k = bind m k'.
Proof.
  destruct m as [out [a|e]]; simpl; intros H; [|reflexivity].
  rewrite (H out a eq_refl). reflexivity.
Qed.

End MonadLaws.

(** ** Strings *)

Module StrFacts.
Import Str.

Lemma eqb_eq (a b : str) : eqb a b = true <-> a = b.
Proof.
  revert b. induction a as [|x a IH]; intros [|y b]; simpl;
    try (split; (reflexivity || discriminate)).
  rewrite andb_true_iff, N.eqb_eq, IH.
  split; [intros [-> ->]; reflexivity | intros H; inversion H; auto].
Qed.

Lemma has_app (c : char) (a b : str) : has c (a ++ b) = has c a || has c b.
Proof. apply existsb_app. Qed.

(** *** [split] *)

Lemma split1_none (sep : char) (s : str) :
  split1 sep s = None <-> has sep s = false.
Proof.
  induction s as [|c s IH]; simpl; [tauto|].
  rewrite (N.eqb_sym sep c).
  destruct (c =? sep); simpl; [split; discriminate|].
  destruct (split1 sep s) as [[h t]|]; [|tauto].
  split; [discriminate|]. intros H. apply IH in H. discriminate.
Qed.

Lemma split1_some (sep : char) (s head tail : str) :
  split1 sep s = Some (head, tail) <->
  s = head ++ sep :: tail /\ has sep head = false.
Proof.
  revert head. induction s as [|c s IH]; intros head; simpl.
  - split; [discriminate|]. intros [H _]. destruct head; discriminate.
  - destruct (c =? sep) eqn:E.
    + apply N.eqb_eq in E. subst c. split.
      * intros H. inversion H. auto.
      * intros [H Hh]. destruct head as [|x head]; simpl in *.
        -- inversion H. reflexivity.
        -- inversion H. subst x. rewrite N.eqb_refl in Hh. discriminate.
    + split.
      * destruct (split1 sep s) as [[h t]|] eqn:Es; [|discriminate].
        intros H. inversion H. subst.
        destruct (proj1 (IH h) eq_refl) as [-> Hh].
        split; [reflexivity|]. simpl.
        rewrite (N.eqb_sym sep c), E. exact Hh.
      * intros [H Hh]. destruct head as [|x head]; simpl in *.
        -- inversion H. subst c. rewrite N.eqb_refl in E. discriminate.
        -- inversion H. subst x s.
           apply orb_false_iff in Hh. destruct Hh as [_ Hh].
           rewrite (proj2 (IH head) (conj eq_refl Hh)). reflexivity.
Qed.

Lemma split1_length (sep : char) (s head tail : str) :
  split1 sep s = Some (head, tail) -> (List.length tail < List.length s)%nat.
Proof.
  rewrite split1_some. intros [-> _]. rewrite length_app. simpl. lia.
Qed.

(** *** [lstrip], [rstrip] and [strip] *)

Lemma lstrip_keep (drop : char -> bool) (c : char) (s : str) :
  drop c = false -> lstrip drop (c :: s) = c :: s.
Proof. simpl. intros ->. reflexivity. Qed.

Lemma lstrip_repeat (drop : char -> bool) (c : char) (k : nat) (s : str) :
  drop c = true -> lstrip drop (repeat c k ++ s) = lstrip drop s.
Proof. intros H. induction k; simpl; [|rewrite H]; auto. Qed.

Lemma rstrip_keep (drop : char -> bool) (s : str) :
  ends_in drop s = false -> rstrip drop s = s.
Proof.
  unfold ends_in, rstrip. destruct (rev s) as [|c r] eqn:E; intros H.
  - simpl. rewrite <- (rev_involutive s), E. reflexivity.
  - rewrite lstrip_keep by exact H. rewrite <- E. apply rev_involutive.
Qed.

Lemma rev_repeat (c : char) (k : nat) : rev (repeat c k) = repeat c k.
Proof.
  induction k; simpl; [reflexivity|].
  rewrite IHk. symmetry. apply repeat_cons.
Qed.

Lemma rstrip_repeat (drop : char -> bool) (c : char) (k : nat) (s : str) :
  drop c = true -> rstrip drop (s ++ repeat c k) = rstrip drop s.
Proof.
  intros H. unfold rstrip.
  rewrite rev_app_distr, rev_repeat, lstrip_repeat by exact H. reflexivity.
Qed.

Lemma ends_in_app (drop : char -> bool) (a b : str) :
  b <> [] -> ends_in drop (a ++ b) = ends_in drop b.
Proof.
  unfold ends_in. rewrite rev_app_distr.
  destruct (rev b) as [|c r] eqn:E; [|reflexivity].
  intros H. exfalso. apply H.
  rewrite <- (rev_involutive b), E. reflexivity.
Qed.

(** What [rstrip] removes is a run of dropped characters, and what
    it leaves does not end in one. *)
Lemma lstrip_split (drop : char -> bool) (s : str) :
  exists gone, s = gone ++ lstrip drop s /\ forallb drop gone = true.
Proof.
  induction s as [|c s [gone [E F]]]; simpl.
  - exists []. auto.
  - destruct (drop c) eqn:D.
    + exists (c :: gone). simpl. rewrite D, F. rewrite <- E. auto.
    + exists []. auto.
Qed.

Lemma lstrip_head (drop : char -> bool) (s : str) :
  match lstrip drop s with c :: _ => drop c = false | [] => True end.
Proof.
  induction s as [|c s IH]; simpl; [exact I|].
  destruct (drop c) eqn:D; [exact IH | exact D].
Qed.

Lemma rstrip_split (drop : char -> bool) (s : str) :
  exists gone, s = rstrip drop s ++ gone /\ forallb drop gone = true.
Proof.
  unfold rstrip. destruct (lstrip_split drop (rev s)) as [gone [E F]].
  exists (rev gone). split.
  - rewrite <- rev_app_distr, <- E. symmetry. apply rev_involutive.
  - rewrite forallb_forall in *. intros x Hx. apply F.
    apply in_rev. exact Hx.
Qed.

Lemma rstrip_ends (drop : char -> bool) (s : str) :
  ends_in drop (rstrip drop s) = false.
Proof.
  unfold ends_in, rstrip. rewrite rev_involutive.
  pose proof (lstrip_head drop (rev s)) as H.
  destruct (lstrip drop (rev s)); auto.
Qed.

Lemma forallb_is_repeat (c : char) (s : str) :
  forallb (N.eqb c) s = true -> s = repeat c (List.length s).
Proof.
  induction s as [|x s IH]; simpl; [reflexivity|].
  rewrite andb_true_iff, N.eqb_eq. intros [<- H]. f_equal. auto.
Qed.

(** A line that starts with a character that is not white space is
    not blank. *)
Lemma strip_nonblank (c : char) (s : str) :
  isspace c = false -> is_empty (strip (c :: s)) = false.
Proof.
  intros H. unfold strip. rewrite lstrip_keep by exact H.
  destruct (rstrip_split isspace (c :: s)) as [gone [E F]].
  destruct (rstrip isspace (c :: s)); [|reflexivity].
  simpl in E. subst gone. simpl in F. rewrite H in F. discriminate.
Qed.

Lemma lstrip_dropped (drop : char -> bool) (gone s : str) :
  forallb drop gone = true -> lstrip drop (gone ++ s) = lstrip drop s.
Proof.
  induction gone as [|c gone IH]; simpl; [reflexivity|].
  rewrite andb_true_iff. intros [-> H]. auto.
Qed.

Lemma rstrip_dropped (drop : char -> bool) (s gone : str) :
  forallb drop gone = true -> rstrip drop (s ++ gone) = rstrip drop s.
Proof.
  intros H. unfold rstrip. rewrite rev_app_distr, lstrip_dropped; [reflexivity|].
  rewrite forallb_forall in *. intros x Hx. apply H, in_rev, Hx.
Qed.

(** [rstrip] stops at the last character it keeps. *)
Lemma rstrip_app_keep (drop : char -> bool) (a b : str) :
  rstrip drop b <> [] -> rstrip drop (a ++ b) = a ++ rstrip drop b.
Proof.
  intros H. destruct (rstrip_split drop b) as [gone [E F]].
  rewrite E at 1. rewrite app_assoc, rstrip_dropped by exact F.
  apply rstrip_keep. rewrite ends_in_app by exact H. apply rstrip_ends.
Qed.

Lemma has_repeat_other (c x : char) (k : nat) :
  (c =? x) = false -> has c (repeat x k) = false.
Proof. intros H. induction k; simpl; [|rewrite H]; auto. Qed.

(** *** [in] and [replace] *)

Lemma startswith_app_l (sub a b : str) :
  startswith sub (a ++ b) = false -> startswith sub a = false.
Proof.
  revert sub. induction a as [|c a IH]; intros [|p sub]; simpl; auto.
  rewrite !andb_false_iff. intros [H|H]; [left|right]; auto.
Qed.

Lemma contains_app_l (sub a b : str) :
  contains sub (a ++ b) = false -> contains sub a = false.
Proof.
  induction a as [|c a IH].
  - intros H. simpl. rewrite orb_false_r.
    apply (startswith_app_l sub [] b).
    destruct b; simpl in H; apply orb_false_iff in H; apply H.
  - simpl. rewrite !orb_false_iff. intros [H1 H2]. split; [|auto].
    apply (startswith_app_l sub (c :: a) b). exact H1.
Qed.

Lemma replace_absent (old new s : str) :
  contains old s = false -> replace old new s = s.
Proof.
  unfold replace. induction s as [|c s IH]; [reflexivity|].
  intros H. simpl in H. apply orb_false_iff in H. destruct H as [H1 H2].
  change (replace_from old new 0 (c :: s))
    with (if startswith old (c :: s)
          then new ++ replace_from old new (pred (List.length old)) s
          else c :: replace_from old new 0 s).
  rewrite H1, IH by exact H2. reflexivity.
Qed.

End StrFacts.

(** ** The [while] loop *)

Section Loop.
Import Str StrFacts.

(** The loop, unfolded once. *)
Lemma process_lines_eq (buffer : str) :
  process_lines buffer =
  match split1 LF buffer with
  | Some (line, rest) =>
      _process_sse_line (rstrip is_cr line) ;; process_lines rest
  | None => ret buffer
  end.
Proof.
  rewrite process_lines_equation_1.
  unfold process_lines_unfold_clause_1, inspect.
  destruct (split1 LF buffer) as [[line rest]|]; reflexivity.
Qed.

Lemma process_lines_none (buffer : str) :
  has LF buffer = false -> process_lines buffer = ret buffer.
Proof.
  intros H. rewrite process_lines_eq.
  rewrite (proj2 (split1_none LF buffer) H). reflexivity.
Qed.

Lemma process_lines_line (line rest : str) :
  has LF line = false ->
  process_lines (line ++ LF :: rest) =
  _process_sse_line (rstrip is_cr line) ;; process_lines rest.
Proof.
  intros H. rewrite process_lines_eq.
  rewrite (proj2 (split1_some LF _ line rest) (conj eq_refl H)).
  reflexivity.
Qed.

(** Induction on what the loop has still to read. *)
Lemma buffer_ind (P : str -> Prop) :
  (forall buffer, has LF buffer = false -> P buffer) ->
  (forall line rest, has LF line = false -> P rest -> P (line ++ LF :: rest)) ->
  forall buffer, P buffer.
Proof.
  intros Hnone Hline buffer.
  induction buffer as [buffer IH] using (induction_ltof1 _ (@List.length char)).
  destruct (split1 LF buffer) as [[line rest]|] eqn:E.
  - pose proof (split1_length _ _ _ _ E) as Hlen.
    apply split1_some in E. destruct E as [-> Hl].
    apply Hline; [exact Hl|]. apply IH. exact Hlen.
  - apply Hnone. apply split1_none. exact E.
Qed.

(** Reading [x ++ y] is reading [x] and then what [x] left,
    followed by [y]. *)
Lemma process_lines_app (x y : str) :
  process_lines (x ++ y) =
  buffer <- process_lines x ;; process_lines (buffer ++ y).
Proof.
  induction x as [x Hx | line rest Hl IH] using buffer_ind.
  - rewrite (process_lines_none x Hx), bind_ret_l. reflexivity.
  - rewrite <- app_assoc. simpl.
    rewrite !process_lines_line by exact Hl.
    rewrite IH, bind_assoc. reflexivity.
Qed.

Lemma tail_after_none (sep : char) (s : str) :
  has sep s = false -> tail_after sep s = s.
Proof. destruct s; simpl; [reflexivity|]. intros ->. reflexivity. Qed.

Lemma tail_after_line (sep : char) (line rest : str) :
  tail_after sep (line ++ sep :: rest) = tail_after sep rest.
Proof.
  induction line as [|c line IH]; simpl.
  - rewrite N.eqb_refl. reflexivity.
  - rewrite has_app. simpl. rewrite N.eqb_refl, !orb_true_r. exact IH.
Qed.

Lemma tail_after_clean (sep : char) (s : str) :
  has sep (tail_after sep s) = false.
Proof.
  induction s as [|c s IH]; [reflexivity|].
  change (tail_after sep (c :: s))
    with (if has sep (c :: s) then tail_after sep s else c :: s).
  destruct (has sep (c :: s)) eqn:E; [exact IH | exact E].
Qed.

Lemma complete_lines_none (cur s : str) :
  has LF s = false -> complete_lines cur s = [].
Proof.
  revert cur. induction s as [|c s IH]; intros cur; simpl; [reflexivity|].
  rewrite (N.eqb_sym LF c). destruct (c =? LF); simpl; [discriminate|].
  intros H. apply IH. exact H.
Qed.

Lemma complete_lines_line (cur line rest : str) :
  has LF line = false ->
  complete_lines cur (line ++ LF :: rest) =
  (cur ++ line) :: complete_lines [] rest.
Proof.
  revert cur. induction line as [|c line IH]; intros cur; simpl.
  - rewrite app_nil_r. reflexivity.
  - rewrite (N.eqb_sym LF c). destruct (c =? LF); simpl; [discriminate|].
    intros H. rewrite IH by exact H. rewrite <- app_assoc. reflexivity.
Qed.

(** The loop processes the complete lines of the buffer and leaves
    what follows the last newline. *)
Lemma process_lines_spec (buffer : str) :
  process_lines buffer =
  for_lines (complete_lines [] buffer) ;; ret (tail_after LF buffer).
Proof.
  induction buffer as [x Hx | line rest Hl IH] using buffer_ind.
  - rewrite process_lines_none, complete_lines_none, tail_after_none
      by exact Hx.
    reflexivity.
  - rewrite process_lines_line, complete_lines_line, tail_after_line
      by exact Hl.
    simpl. rewrite bind_assoc, IH. reflexivity.
Qed.

Lemma bind_returned {A B} (m : M A) (k : A -> M B) out b :
  bind m k = (out, Returned b) ->
  exists out1 a out2,
    m = (out1, Returned a) /\ k a = (out2, Returned b) /\ out = out1 ++ out2.
Proof.
  destruct m as [out1 [a|e]]; simpl; [|discriminate].
  destruct (k a) as [out2 r] eqn:E. intros H. inversion H. subst.
  exists out1, a, out2. auto.
Qed.

Lemma process_lines_returned (buffer : str) out buffer' :
  process_lines buffer = (out, Returned buffer') ->
  buffer' = tail_after LF buffer /\ has LF buffer' = false.
Proof.
  rewrite process_lines_spec. intros H.
  apply bind_returned in H. destruct H as (out1 & [] & out2 & _ & H & _).
  inversion H. split; [reflexivity | apply tail_after_clean].
Qed.

End Loop.

(** ** [json.loads] and trailing carriage returns *)

Module JsonFacts.
Import Json.

Ltac split_cases :=
  repeat match goal with
         | |- context [match ?x with _ => _ end] => destruct x
         end.

Lemma complete_ok v stack : literal_ok (complete v stack) = true.
Proof. destruct stack as [|[] stack]; reflexivity. Qed.

Lemma value_next_ok s c : literal_ok (value_next s c) = true.
Proof. unfold value_next. split_cases; auto using complete_ok. Qed.

Lemma value_start_ok stack c : literal_ok (value_start stack c) = true.
Proof. unfold value_start. split_cases; reflexivity. Qed.

Lemma number_step_ok stack lexeme p c :
  literal_ok (number_step stack lexeme p c) = true.
Proof.
  unfold number_step. destruct p; split_cases;
    auto using value_next_ok.
Qed.

Lemma step_ok s c : literal_ok s = true -> literal_ok (step s c) = true.
Proof.
  destruct s as [stack m|w|]; [|intros; apply (value_next_ok (Done w)) | auto].
  destruct m; intros H; unfold step;
    auto using value_start_ok, number_step_ok, value_next_ok.
  all: try (split_cases; auto using complete_ok, value_start_ok; fail).
  destruct rest as [|x [|y rest]]; split_cases; auto using complete_ok.
  simpl in H |- *. rewrite negb_true_iff in *.
  apply orb_false_iff in H. apply H.
Qed.

Lemma fold_ok text s :
  literal_ok s = true -> literal_ok (fold_left step text s) = true.
Proof.
  revert s. induction text as [|c text IH]; intros s H; simpl; auto using step_ok.
Qed.

Lemma string_step_cr acc p : string_step acc p CR = None.
Proof. destruct p; reflexivity. Qed.

(** A carriage return after the text does not turn a failure into a
    success, nor change the value. *)
Lemma finish_step_cr (s : state) (v : json) :
  literal_ok s = true ->
  finish (step s CR) = Some v -> finish s = Some v.
Proof.
  destruct s as [stack m|w|]; [|auto|auto].
  destruct m; intros Hok; unfold step; try rewrite string_step_cr.
  all: try discriminate.
  all: try (destruct stack as [|[] stack]; cbn; discriminate).
  - unfold number_step. destruct p; try discriminate.
    all: destruct stack as [|[] stack]; cbn; auto; discriminate.
  - destruct rest as [|x rest]; [discriminate|].
    simpl in Hok. rewrite negb_true_iff in Hok.
    apply orb_false_iff in Hok. destruct Hok as [-> _]. discriminate.
Qed.

Lemma loads_cr (text : str) (v : json) :
  loads (text ++ [CR]) = Some v -> loads text = Some v.
Proof.
  unfold loads. rewrite fold_left_app. simpl.
  apply finish_step_cr. apply fold_ok. reflexivity.
Qed.

Lemma loads_crs (text : str) (k : nat) (v : json) :
  loads (text ++ repeat CR k) = Some v -> loads text = Some v.
Proof.
  induction k as [|k IH]; simpl.
  - rewrite app_nil_r. auto.
  - rewrite repeat_cons, app_assoc. intros H. apply IH, loads_cr, H.
Qed.

(** [json.loads] accepts a text without its trailing carriage
    returns if it accepts the text, with the same value. *)
Lemma loads_rstrip_cr (text : str) (v : json) :
  loads text = Some v -> loads (Str.rstrip is_cr text) = Some v.
Proof.
  destruct (StrFacts.rstrip_split is_cr text) as [gone [E F]].
  intros H. rewrite E in H.
  rewrite (StrFacts.forallb_is_repeat CR gone) in H.
  - apply loads_crs in H. exact H.
  - rewrite forallb_forall in *. intros x Hx.
    specialize (F x Hx). unfold is_cr in F. rewrite N.eqb_sym. exact F.
Qed.

End JsonFacts.

(** ** Feeding chunks *)

Section Feed.
Import Str StrFacts.

Lemma feed_clean (buffer chunk : str) :
  has LF buffer = false ->
  feed buffer chunk = process_lines (buffer ++ chunk).
Proof.
  intros H. unfold feed. destruct chunk as [|c chunk]; simpl; [|reflexivity].
  rewrite app_nil_r, process_lines_none by exact H. reflexivity.
Qed.

Lemma feed_app (buffer a b : str) :
  feed buffer (a ++ b) = buffer' <- feed buffer a ;; feed buffer' b.
Proof.
  destruct a as [|x a].
  - change (feed buffer []) with (ret (A:=str) buffer).
    rewrite bind_ret_l. reflexivity.
  - destruct b as [|y b].
    + rewrite app_nil_r.
      change (fun buffer' => feed buffer' []) with (@ret str).
      rewrite bind_ret_r. reflexivity.
    + change (feed buffer ((x :: a) ++ y :: b))
        with (process_lines (buffer ++ (x :: a) ++ y :: b)).
      rewrite app_assoc. apply process_lines_app.
Qed.

Lemma feed_returned (buffer chunk : str) out buffer' :
  has LF buffer = false ->
  feed buffer chunk = (out, Returned buffer') ->
  buffer' = tail_after LF (buffer ++ chunk) /\ has LF buffer' = false.
Proof.
  intros H. rewrite feed_clean by exact H. apply process_lines_returned.
Qed.

Lemma for_chunks_concat (chunks : list str) (buffer : str) :
  has LF buffer = false ->
  for_chunks chunks buffer = process_lines (buffer ++ List.concat chunks).
Proof.
  revert buffer. induction chunks as [|chunk chunks IH]; intros buffer H; simpl.
  - rewrite app_nil_r, process_lines_none by exact H. reflexivity.
  - rewrite app_assoc, process_lines_app, feed_clean by exact H.
    apply bind_ext_on. intros out buffer' E.
    apply IH. apply process_lines_returned in E. apply E.
Qed.

Lemma parse_sse_stream_concat (chunks : list str) :
  _parse_sse_stream chunks = _parse_sse_stream [List.concat chunks].
Proof.
  unfold _parse_sse_stream.
  rewrite !for_chunks_concat by reflexivity. simpl.
  rewrite app_nil_r. reflexivity.
Qed.

(** What is printed for a stream that is one complete line. *)
Lemma parse_sse_stream_line (chunks : list str) (line : str) :
  has LF line = false ->
  List.concat chunks = line ++ [LF] ->
  _parse_sse_stream chunks =
  fst (try_except (_process_sse_line (rstrip is_cr line))
                  (fun e => emit (StreamError e))).
Proof.
  intros Hl E. unfold _parse_sse_stream.
  rewrite for_chunks_concat by reflexivity. simpl. rewrite E.
  rewrite process_lines_line by exact Hl.
  rewrite process_lines_none by reflexivity.
  destruct (_process_sse_line (rstrip is_cr line)) as [out [[]|e]]; simpl;
    rewrite ?app_nil_r; reflexivity.
Qed.

End Feed.

(** ** Classifying a line *)

Section Lines.
Import Str StrFacts.

Lemma py_data : py "data:" = [100; 97; 116; 97; 58].
Proof. reflexivity. Qed.

(** A [data:] line reaches the [data:] branch. *)
Lemma process_sse_line_data (rest : str) :
  _process_sse_line (py "data:" ++ rest) =
  let data := data_payload (py "data:" ++ rest) in
  if Str.eqb data (py "[DONE]") then emit Terminator
  else
    let text := unescape data in
    match Json.loads text with
    | Some parsed => _handle_json_data parsed
    | None => emit (TextPayload text)
    end.
Proof.
  unfold _process_sse_line. rewrite py_data. simpl app.
  rewrite strip_nonblank by reflexivity.
  reflexivity.
Qed.

Lemma data_payload_plain (p : str) :
  startswith (py " ") p = false -> data_payload (py "data:" ++ p) = p.
Proof. unfold data_payload. rewrite py_data. simpl skipn. intros ->. reflexivity. Qed.

Lemma mem_get (key : str) (d : Dict.dict) :
  Dict.mem key d = true -> exists v, Dict.get key d = Some v.
Proof.
  induction d as [|[k w] d IH]; simpl; [discriminate|].
  destruct (eqb k key); simpl; eauto.
Qed.

Lemma not_mem_get (key : str) (d : Dict.dict) :
  Dict.mem key d = false -> Dict.get key d = None.
Proof.
  induction d as [|[k w] d IH]; simpl; [reflexivity|].
  destruct (eqb k key); simpl; [discriminate | exact IH].
Qed.

(** A dict is always shown, in the way the specification's
    sub-dispatch says, and never raises. *)
Lemma handle_json_data_object (d : Dict.dict) :
  _handle_json_data (JObject d)
  = emit (StructuredPayload (JObject d) (sub_dispatch d)).
Proof.
  unfold _handle_json_data, py_in, getitem, sub_dispatch.
  rewrite !bind_ret_l.
  destruct (Dict.mem (py "content") d) eqn:E1;
    [destruct (mem_get _ _ E1) as [v ->]; rewrite bind_ret_l; reflexivity|].
  rewrite (not_mem_get _ _ E1).
  destruct (Dict.mem (py "message") d) eqn:E2;
    [destruct (mem_get _ _ E2) as [v ->]; rewrite bind_ret_l; reflexivity|].
  rewrite (not_mem_get _ _ E2).
  destruct (Dict.mem (py "error") d) eqn:E3;
    [destruct (mem_get _ _ E3) as [v ->]; rewrite bind_ret_l; reflexivity|].
  rewrite (not_mem_get _ _ E3). reflexivity.
Qed.

(** When [_handle_json_data] prints and returns, it has printed one
    structured payload of the value it was given. *)
Lemma handle_json_data_emits (data : json) (e : event) :
  _handle_json_data data = emit e ->
  exists s, e = StructuredPayload data s.
Proof.
  destruct data as [| b | z | l | s | items | d]; try discriminate.
  - unfold _handle_json_data, py_in, getitem. rewrite !bind_ret_l.
    repeat match goal with
           | |- context [if ?b then _ else _] => destruct b
           end; try discriminate; intros H; inversion H; eauto.
  - unfold _handle_json_data, py_in, getitem. rewrite !bind_ret_l.
    repeat match goal with
           | |- context [if ?b then _ else _] => destruct b
           end; try discriminate; intros H; inversion H; eauto.
  - rewrite handle_json_data_object. intros H. inversion H. eauto.
Qed.

End Lines.

(** ** [unescape] *)

Section Unescape.
Import Str StrFacts.

(** After [unescape] no escape sequence is left. *)
Lemma unescape_head (s : str) :
  startswith [ch "n"] s = false -> startswith [ch "n"] (unescape s) = false.
Proof.
  destruct s as [|c s]; [reflexivity|].
  unfold unescape, replace.
  change (replace_from [BACKSLASH; ch "n"] [LF] 0 (c :: s))
    with (if startswith [BACKSLASH; ch "n"] (c :: s)
          then [LF] ++ replace_from [BACKSLASH; ch "n"] [LF] 1 s
          else c :: replace_from [BACKSLASH; ch "n"] [LF] 0 s).
  destruct (startswith [BACKSLASH; ch "n"] (c :: s)); [reflexivity|].
  simpl. auto.
Qed.

Lemma unescape_complete (s : str) :
  contains [BACKSLASH; ch "n"] (unescape s) = false.
Proof.
  induction s as [s IH] using (induction_ltof1 _ (@List.length char)).
  unfold ltof in IH.
  destruct s as [|c s]; [reflexivity|].
  unfold unescape, replace in *.
  change (replace_from [BACKSLASH; ch "n"] [LF] 0 (c :: s))
    with (if startswith [BACKSLASH; ch "n"] (c :: s)
          then [LF] ++ replace_from [BACKSLASH; ch "n"] [LF] 1 s
          else c :: replace_from [BACKSLASH; ch "n"] [LF] 0 s).
  destruct (startswith [BACKSLASH; ch "n"] (c :: s)) eqn:E.
  - destruct s as [|d s]; [reflexivity|].
    change (replace_from [BACKSLASH; ch "n"] [LF] 1 (d :: s))
      with (replace_from [BACKSLASH; ch "n"] [LF] 0 s).
    change (contains [BACKSLASH; ch "n"] ([LF] ++ ?x))
      with (false || contains [BACKSLASH; ch "n"] x).
    simpl orb. apply IH. simpl. lia.
  - change (contains ?o (c :: ?x))
      with (startswith o (c :: x) || contains o x).
    rewrite IH by (simpl; lia). rewrite orb_false_r.
    simpl in E |- *.
    destruct (BACKSLASH =? c); [|reflexivity]. simpl in E |- *.
    pose proof (unescape_head s) as H. unfold unescape, replace in H.
    simpl in H. apply H. exact E.
Qed.

End Unescape.

(** * The claims *)

Section Claims.
Import Str StrFacts.

(** C1, as stated, fails.  The object [{'content': 'a\nb'}] (the
    apostrophes stand for double quotes), whose string holds an
    escaped newline, is valid JSON, but its [data:] line is printed as
    text: the escape is replaced by a newline before the text is
    parsed.  The object [{], newline, [}] is valid JSON too, and its
    [data:] line is cut in two at the newline. *)
Lemma escaped_newline_object_is_text :
  (Json.loads (pyq "{'content': 'a\nb'}")
   = Some (JObject [(py "content", JString (py "a" ++ [LF] ++ py "b"))])
   /\ _parse_sse_stream [py "data: " ++ pyq "{'content': 'a\nb'}" ++ [LF]]
      = [TextPayload (pyq "{'content': 'a" ++ [LF] ++ pyq "b'}")])
  /\ (Json.loads (py "{" ++ [LF] ++ py "}") = Some (JObject [])
      /\ _parse_sse_stream [py "data: " ++ (py "{" ++ [LF] ++ py "}") ++ [LF]]
         = [TextPayload (py "{"); RawLine (py "}")]).
Proof. repeat split; reflexivity. Qed.

(** C1, amended: for every payload [P] that is a valid JSON object,
    holds neither a newline nor the two characters backslash and [n],
    stays within the limits of the interpreter (no run of more than
    4300 digits, arrays and objects nested at most 900 deep) and whose
    shown value can be printed (it is no str with a lone surrogate),
    the text [data: P] followed by a newline, cut into chunks in any
    way, prints exactly one StructuredPayload and nothing else; it
    carries the object [P] decodes to, shown as the sub-dispatch
    says. *)
Theorem structured_payload_any_chunking
  (P : str) (pairs : Dict.dict) (chunks : list str) :
  Json.loads P = Some (JObject pairs) ->
  has LF P = false ->
  contains [BACKSLASH; ch "n"] P = false ->
  within_limits P = true ->
  shown_printable (sub_dispatch pairs) = true ->
  List.concat chunks = py "data: " ++ P ++ [LF] ->
  _parse_sse_stream chunks
  = [StructuredPayload (JObject pairs) (sub_dispatch pairs)].
Proof.
  intros Hjson Hlf Hesc _ _ Hchunks.
  rewrite (parse_sse_stream_line chunks (py "data: " ++ P)).
  2: { rewrite has_app, Hlf. reflexivity. }
  2: { rewrite Hchunks, <- app_assoc. reflexivity. }
  apply JsonFacts.loads_rstrip_cr in Hjson.
  destruct (rstrip_split is_cr P) as [gone [E _]].
  rewrite E in Hesc. apply contains_app_l in Hesc. clear E gone.
  rewrite rstrip_app_keep
    by (intros E; rewrite E in Hjson; discriminate).
  set (Q := rstrip is_cr P) in *.
  change (py "data: " ++ Q) with (py "data:" ++ SP :: Q).
  rewrite process_sse_line_data.
  change (data_payload (py "data:" ++ SP :: Q)) with Q. cbv zeta.
  destruct (Str.eqb Q (py "[DONE]")) eqn:D.
  { apply eqb_eq in D. rewrite D in Hjson. discriminate. }
  unfold unescape. rewrite replace_absent by exact Hesc. rewrite Hjson.
  rewrite handle_json_data_object. reflexivity.
Qed.

Lemma structured_payload_any_chunking_witness :
  let P := pyq "{'content': 'hi'}" in
  let chunks := [py "dat"; pyq "a: {'content': 'hi'}"; [LF]] in
  Json.loads P = Some (JObject [(py "content", JString (py "hi"))])
  /\ has LF P = false
  /\ contains [BACKSLASH; ch "n"] P = false
  /\ within_limits P = true
  /\ shown_printable (sub_dispatch [(py "content", JString (py "hi"))]) = true
  /\ List.concat chunks = py "data: " ++ P ++ [LF]
  /\ _parse_sse_stream chunks
     = [StructuredPayload (JObject [(py "content", JString (py "hi"))])
                          (Content (JString (py "hi")))].
Proof.
  do 6 (split; [reflexivity|]).
  apply (structured_payload_any_chunking (pyq "{'content': 'hi'}"));
    reflexivity.
Defined.

(** C2: a [data:] line whose payload is a bare number does not end
    as text.  [42] decodes to an [int], [_handle_json_data] asks
    ['content' in 42], and the [TypeError] that raises is not a
    [JSONDecodeError]: it leaves [_process_sse_line] and ends the loop
    of [_parse_sse_stream], so that the lines after it are lost too. *)
Theorem bare_number_aborts_stream :
  Json.loads (py "42") = Some (JInt 42)
  /\ (forall z, _handle_json_data (JInt z) = ([], Raised TypeError))
  /\ _process_sse_line (py "data: 42") = ([], Raised TypeError)
  /\ _parse_sse_stream [py "data: 42" ++ [LF]; py "data: hello" ++ [LF]]
     = [StreamError TypeError].
Proof. repeat split; reflexivity. Qed.

(** C3, as stated, fails: a line fed after [data: [DONE]] is decoded
    and printed like any other. *)
Lemma lines_after_done_are_decoded :
  _parse_sse_stream [py "data: [DONE]" ++ [LF]; py "data: hi" ++ [LF]]
  = [Terminator; TextPayload (py "hi")].
Proof. reflexivity. Qed.

(** C3, amended: the line [data: [DONE]] prints exactly one
    Terminator and nothing else; the parser keeps no record of it,
    and what is fed afterwards is decoded as it would be by a parser
    that starts there. *)
Theorem done_emits_terminator_and_continues :
  _process_sse_line (py "data: [DONE]") = ([Terminator], Returned tt)
  /\ feed [] (py "data: [DONE]" ++ [LF]) = ([Terminator], Returned [])
  /\ (forall rest,
        process_lines (py "data: [DONE]" ++ LF :: rest)
        = (emit Terminator ;; process_lines rest))
  /\ (forall chunks,
        _parse_sse_stream ((py "data: [DONE]" ++ [LF]) :: chunks)
        = Terminator :: _parse_sse_stream chunks).
Proof.
  split; [reflexivity|]. split; [reflexivity|].
  split; [intros rest; apply process_lines_line; reflexivity|].
  intros chunks. unfold _parse_sse_stream.
  change (for_chunks ((py "data: [DONE]" ++ [LF]) :: chunks) [])
    with (buffer <- feed [] (py "data: [DONE]" ++ [LF]) ;;
          for_chunks chunks buffer).
  change (feed [] (py "data: [DONE]" ++ [LF]))
    with (([Terminator], Returned []) : M str).
  destruct (for_chunks chunks []) as [out [b|e]] eqn:E;
    unfold bind; rewrite E; reflexivity.
Qed.

(** C4, as stated, fails on one data line: the payload [[DONE]] is
    not JSON, and its line prints the Terminator, not a TextPayload. *)
Lemma terminator_payload_is_not_text :
  data_payload (py "data: [DONE]") = py "[DONE]"
  /\ Json.loads (unescape (py "[DONE]")) = None
  /\ _process_sse_line (py "data: [DONE]") = emit Terminator.
Proof. repeat split; reflexivity. Qed.

(** C4, amended: on every [data:] line whose payload is not the
    terminator, each escape sequence backslash [n] of the payload is
    replaced by a newline before [json.loads] is tried, not after: no
    escape sequence is left in the unescaped text, and whatever the
    line prints when it returns is a TextPayload of the unescaped
    text, which is not JSON, or a StructuredPayload of what the
    unescaped text decodes to.  When the unescaped text stays within
    the limits of the interpreter (no run of more than 4300 digits,
    nesting at most 900 deep) and is not JSON, it is printed as a
    TextPayload, provided it can be encoded; when it is JSON, what it
    decodes to is handed to [_handle_json_data]. *)
Theorem unescape_before_json_parse (rest : str) :
  let data := data_payload (py "data:" ++ rest) in
  let text := unescape data in
  data <> py "[DONE]" ->
  contains [BACKSLASH; ch "n"] text = false
  /\ (forall e,
        _process_sse_line (py "data:" ++ rest) = emit e ->
        (e = TextPayload text /\ Json.loads text = None)
        \/ (exists parsed s,
              e = StructuredPayload parsed s
              /\ Json.loads text = Some parsed))
  /\ (within_limits text = true ->
      encodable text = true ->
      Json.loads text = None ->
      _process_sse_line (py "data:" ++ rest) = emit (TextPayload text))
  /\ (within_limits text = true ->
      forall parsed,
        Json.loads text = Some parsed ->
        _process_sse_line (py "data:" ++ rest) = _handle_json_data parsed).
Proof.
  intros data text Hdone.
  split; [apply unescape_complete|].
  rewrite process_sse_line_data. fold data. cbv zeta. fold text.
  destruct (Str.eqb data (py "[DONE]")) eqn:D.
  { apply eqb_eq in D. contradiction. }
  split; [|split].
  - intros e. destruct (Json.loads text) as [parsed|].
    + intros H. right. destruct (handle_json_data_emits _ _ H) as [s ->].
      eauto.
    + intros H. inversion H. auto.
  - intros _ _ ->. reflexivity.
  - intros _ parsed ->. reflexivity.
Qed.

Lemma unescape_before_json_parse_witness :
  let rest := pyq " {'content': 'a\nb'}" in
  let text := pyq "{'content': 'a" ++ [LF] ++ pyq "b'}" in
  data_payload (py "data:" ++ rest) <> py "[DONE]"
  /\ unescape (data_payload (py "data:" ++ rest)) = text
  /\ within_limits text = true
  /\ encodable text = true
  /\ Json.loads text = None
  /\ _process_sse_line (py "data:" ++ rest) = emit (TextPayload text).
Proof.
  split; [discriminate|]. do 4 (split; [reflexivity|]).
  apply (unescape_before_json_parse (pyq " {'content': 'a\nb'}"));
    [discriminate | reflexivity | reflexivity | reflexivity].
Defined.

Lemma for_chunks_feed (chunks : list str) (buffer : str) :
  for_chunks chunks buffer = feed buffer (List.concat chunks).
Proof.
  revert buffer. induction chunks as [|chunk chunks IH]; intros buffer.
  - reflexivity.
  - simpl. rewrite feed_app. apply bind_ext_on. intros out buffer' _. apply IH.
Qed.

(** C5: cutting the input into chunks changes nothing.  Feeding
    [a ++ b] is feeding [a] and then [b] to the buffer that is left;
    feeding a list of chunks one at a time is feeding their
    concatenation in one call; and the whole function prints the same
    for a list of chunks as for their concatenation. *)
Theorem feed_chunking_independent :
  (forall buffer a b,
      feed buffer (a ++ b) = buffer' <- feed buffer a ;; feed buffer' b)
  /\ (forall chunks buffer,
        for_chunks chunks buffer = feed buffer (List.concat chunks))
  /\ (forall chunks,
        _parse_sse_stream chunks = _parse_sse_stream [List.concat chunks]).
Proof.
  split; [exact feed_app|]. split; [exact for_chunks_feed|].
  exact parse_sse_stream_concat.
Qed.

(** C6: after the five characters [data:], one leading space of the
    payload is removed and no more.  With one space after the colon
    the payload is what follows the space; with two spaces it starts
    with one space; with none it is what follows the colon.  The
    payload so obtained is what the rest of the line processing
    works on. *)
Theorem data_payload_strips_one_space :
  (forall p, data_payload (py "data: " ++ p) = p)
  /\ (forall p, data_payload (py "data:  " ++ p) = SP :: p)
  /\ (forall p, startswith (py " ") p = false ->
                data_payload (py "data:" ++ p) = p)
  /\ (forall rest,
        _process_sse_line (py "data:" ++ rest) =
        let data := data_payload (py "data:" ++ rest) in
        if Str.eqb data (py "[DONE]") then emit Terminator
        else
          let text := unescape data in
          match Json.loads text with
          | Some parsed => _handle_json_data parsed
          | None => emit (TextPayload text)
          end).
Proof.
  split; [reflexivity|]. split; [reflexivity|].
  split; [exact data_payload_plain | exact process_sse_line_data].
Qed.

Lemma data_payload_strips_one_space_witness :
  startswith (py " ") (py "x y") = false
  /\ data_payload (py "data:" ++ py "x y") = py "x y"
  /\ _process_sse_line (py "data:  indented text")
     = emit (TextPayload (py " indented text")).
Proof.
  split; [reflexivity|]. split.
  - apply (proj1 (proj2 (proj2 data_payload_strips_one_space))).
    reflexivity.
  - reflexivity.
Defined.

(** C7: the buffer holds no newline after a feed.  If the buffer
    holds none before the call and the call returns, every complete
    line of the buffer and the chunk has been processed, in order,
    and the buffer is what follows the last newline, so it holds
    none; and every buffer reached from the empty one is such a
    buffer. *)
Theorem buffer_has_no_newline_after_feed :
  (forall buffer chunk out buffer',
      has LF buffer = false ->
      feed buffer chunk = (out, Returned buffer') ->
      has LF buffer' = false
      /\ buffer' = tail_after LF (buffer ++ chunk)
      /\ for_lines (complete_lines [] (buffer ++ chunk)) = (out, Returned tt))
  /\ (forall chunks out buffer,
        for_chunks chunks [] = (out, Returned buffer) ->
        has LF buffer = false).
Proof.
  split.
  - intros buffer chunk out buffer' H E.
    destruct (feed_returned _ _ _ _ H E) as [E1 E2].
    split; [exact E2|]. split; [exact E1|].
    rewrite feed_clean, process_lines_spec in E by exact H.
    apply bind_returned in E.
    destruct E as (out1 & [] & out2 & E & R & ->).
    inversion R. rewrite app_nil_r. exact E.
  - intros chunks out buffer E.
    rewrite for_chunks_concat in E by reflexivity.
    apply process_lines_returned in E. apply E.
Qed.

Lemma buffer_has_no_newline_after_feed_witness :
  let buffer := py "da" in
  let chunk := py "ta: x" ++ [LF] ++ py ": ping" ++ [LF] ++ py "eve" in
  has LF buffer = false
  /\ feed buffer chunk = ([TextPayload (py "x")], Returned (py "eve"))
  /\ has LF (py "eve") = false
  /\ py "eve" = tail_after LF (buffer ++ chunk)
  /\ for_lines (complete_lines [] (buffer ++ chunk))
     = ([TextPayload (py "x")], Returned tt).
Proof.
  split; [reflexivity|]. split; [reflexivity|].
  apply (proj1 buffer_has_no_newline_after_feed (py "da")); reflexivity.
Defined.

(** C8: a line that is not blank and starts with none of [event:],
    [data:] and [:] is printed as exactly one RawLine, which carries
    the whole line. *)
Theorem unrecognised_line_is_raw (line : str) :
  is_empty (strip line) = false ->
  startswith (py "event:") line = false ->
  startswith (py "data:") line = false ->
  startswith (py ":") line = false ->
  _process_sse_line line = ([RawLine line], Returned tt).
Proof.
  intros H1 H2 H3 H4. unfold _process_sse_line.
  rewrite H1, H2, H3, H4. reflexivity.
Qed.

Lemma unrecognised_line_is_raw_witness :
  let line := py "  retry: 3000 " in
  is_empty (strip line) = false
  /\ startswith (py "event:") line = false
  /\ startswith (py "data:") line = false
  /\ startswith (py ":") line = false
  /\ _process_sse_line line = ([RawLine line], Returned tt).
Proof.
  do 4 (split; [reflexivity|]).
  apply (unrecognised_line_is_raw (py "  retry: 3000 ")); reflexivity.
Defined.

(** C9: an empty chunk is a no-op.  [feed] leaves the buffer as it
    is and prints nothing, whatever the buffer, so feeding an empty
    chunk before or after another chunk changes nothing. *)
Theorem feed_empty_chunk_noop :
  (forall buffer, feed buffer [] = ([], Returned buffer))
  /\ (forall buffer chunk,
        (buffer' <- feed buffer [] ;; feed buffer' chunk) = feed buffer chunk)
  /\ (forall buffer chunk,
        (buffer' <- feed buffer chunk ;; feed buffer' []) = feed buffer chunk).
Proof.
  split; [reflexivity|]. split; intros buffer chunk.
  - rewrite <- feed_app. reflexivity.
  - rewrite <- feed_app, app_nil_r. reflexivity.
Qed.

(** C10: every trailing carriage return of a line is removed before
    the line is classified.  For a line made of [body], which does
    not end in a carriage return but may hold some elsewhere, and
    [k] carriage returns, [rstrip] gives back [body], and that is
    what the loop hands to [_process_sse_line]. *)
Theorem all_trailing_cr_stripped (body : str) (k : nat) (rest : str) :
  has LF body = false ->
  ends_in is_cr body = false ->
  rstrip is_cr (body ++ repeat CR k) = body
  /\ process_lines (body ++ repeat CR k ++ LF :: rest) =
     (_process_sse_line body ;; process_lines rest).
Proof.
  intros Hlf Hcr.
  assert (E : rstrip is_cr (body ++ repeat CR k) = body).
  { rewrite rstrip_repeat by reflexivity. apply rstrip_keep, Hcr. }
  split; [exact E|].
  rewrite app_assoc, process_lines_line, E; [reflexivity|].
  rewrite has_app, Hlf. apply has_repeat_other. reflexivity.
Qed.

Lemma all_trailing_cr_stripped_witness :
  let body := py "a" ++ [CR] ++ py "b" in
  has LF body = false
  /\ ends_in is_cr body = false
  /\ rstrip is_cr (body ++ repeat CR 3) = body
  /\ process_lines (body ++ repeat CR 3 ++ LF :: py "tail") =
     (_process_sse_line body ;; process_lines (py "tail")).
Proof.
  split; [reflexivity|]. split; [reflexivity|].
  apply (all_trailing_cr_stripped (py "a" ++ [CR] ++ py "b") 3 (py "tail"));
    reflexivity.
Defined.

End Claims.

(** * Further properties of the parser *)

Section MoreLines.
Import Str StrFacts.

Lemma strip_blank (s : str) :
  is_empty (strip s) = true <-> forallb isspace s = true.
Proof.
  unfold strip. split.
  - intros E. destruct (rstrip isspace (lstrip isspace s)) eqn:R; [|discriminate].
    destruct (rstrip_split isspace (lstrip isspace s)) as [gone [G F]].
    rewrite R in G. simpl in G.
    pose proof (lstrip_head isspace s) as H.
    destruct (lstrip isspace s) as [|c l] eqn:L.
    + destruct (lstrip_split isspace s) as [g [Eg Fg]].
      rewrite L, app_nil_r in Eg. subst g. exact Fg.
    + subst gone. simpl in F. rewrite H in F. discriminate.
  - intros F. rewrite <- (app_nil_r s), lstrip_dropped by exact F. reflexivity.
Qed.

Lemma strip_nonblank_iff (s : str) :
  is_empty (strip s) = false <-> forallb isspace s = false.
Proof.
  pose proof (strip_blank s) as H.
  destruct (is_empty (strip s)), (forallb isspace s); intuition congruence.
Qed.

Lemma startswith_skipn (p s : str) :
  startswith p s = true -> s = p ++ skipn (List.length p) s.
Proof.
  revert s. induction p as [|x p IH]; intros [|c s]; simpl;
    try reflexivity; try discriminate.
  rewrite andb_true_iff, N.eqb_eq. intros [-> H]. f_equal. auto.
Qed.

Lemma startswith_prefix (p s : str) : startswith p (p ++ s) = true.
Proof. induction p; simpl; [|rewrite N.eqb_refl]; auto. Qed.

(** The whole of [_handle_json_data]: a dict is shown as the
    sub-dispatch says; any other value raises [TypeError] or is shown
    by the [else] branch. *)
Lemma handle_json_data_outcome (data : json) :
  _handle_json_data data =
  match data with
  | JObject d => emit (StructuredPayload data (sub_dispatch d))
  | _ => if raises_type_error data then raise TypeError
         else emit (StructuredPayload data Data)
  end.
Proof.
  destruct data as [| b | z | l | s | items | d]; try reflexivity.
  - unfold _handle_json_data, py_in, getitem, raises_type_error, shown_names.
    rewrite !bind_ret_l. simpl existsb.
    destruct (contains (py "content") s); [reflexivity|].
    destruct (contains (py "message") s); [reflexivity|].
    destruct (contains (py "error") s); reflexivity.
  - unfold _handle_json_data, py_in, getitem, raises_type_error, shown_names.
    rewrite !bind_ret_l. simpl existsb.
    match goal with |- context [if ?b then _ else _] => destruct b end;
      [reflexivity|].
    match goal with |- context [if ?b then _ else _] => destruct b end;
      [reflexivity|].
    match goal with |- context [if ?b then _ else _] => destruct b end;
      reflexivity.
  - apply handle_json_data_object.
Qed.

(** [_handle_json_data] prints one structured payload or raises
    [TypeError]. *)
Lemma handle_json_data_cases (data : json) :
  _handle_json_data data = raise TypeError
  \/ exists s, _handle_json_data data = emit (StructuredPayload data s).
Proof.
  rewrite handle_json_data_outcome.
  destruct data; try (left; reflexivity); eauto.
  - destruct (raises_type_error _); eauto.
  - destruct (raises_type_error _); eauto.
Qed.

Lemma handle_json_data_not_silent (data : json) :
  _handle_json_data data <> ret tt.
Proof.
  destruct (handle_json_data_cases data) as [-> | [s ->]]; discriminate.
Qed.

Lemma event_not_comment (line : str) :
  startswith (py "event:") line = true -> startswith (py ":") line = false.
Proof.
  destruct line as [|c l]; [discriminate|]. simpl.
  destruct (101 =? c) eqn:E; [|discriminate].
  apply N.eqb_eq in E. subst c. reflexivity.
Qed.

Lemma data_not_comment (line : str) :
  startswith (py "data:") line = true -> startswith (py ":") line = false.
Proof.
  destruct line as [|c l]; [discriminate|]. simpl.
  destruct (100 =? c) eqn:E; [|discriminate].
  apply N.eqb_eq in E. subst c. reflexivity.
Qed.

(** X1: the lines for which [_process_sse_line] prints nothing and
    returns are exactly the blank lines, made of white space only,
    and the comment lines, which start with a colon.  Every other
    line prints something or raises. *)
Theorem silent_lines_are_blank_or_comment (line : str) :
  _process_sse_line line = ret tt
  <-> forallb isspace line = true \/ startswith (py ":") line = true.
Proof.
  unfold _process_sse_line.
  destruct (is_empty (strip line)) eqn:B.
  { apply strip_blank in B. tauto. }
  apply strip_nonblank_iff in B.
  destruct (startswith (py "event:") line) eqn:E.
  { rewrite (event_not_comment _ E), B.
    split; [discriminate | intros [H|H]; discriminate]. }
  destruct (startswith (py "data:") line) eqn:D.
  { rewrite (data_not_comment _ D), B.
    split; [|intros [H|H]; discriminate].
    destruct (Str.eqb _ _); [discriminate|].
    destruct (Json.loads _); [|discriminate].
    intros H. exfalso. exact (handle_json_data_not_silent _ H). }
  destruct (startswith (py ":") line) eqn:C.
  { tauto. }
  rewrite B. split; [discriminate | intros [H|H]; discriminate].
Qed.

Lemma strip_idempotent (s : str) : strip (strip s) = strip s.
Proof.
  unfold strip at 1.
  assert (H : lstrip isspace (strip s) = strip s).
  { unfold strip.
    destruct (rstrip_split isspace (lstrip isspace s)) as [gone [G _]].
    pose proof (lstrip_head isspace s) as Hh.
    destruct (rstrip isspace (lstrip isspace s)) as [|c u]; [reflexivity|].
    rewrite G in Hh. simpl in Hh. apply lstrip_keep. exact Hh. }
  rewrite H. apply rstrip_keep. apply rstrip_ends.
Qed.

(** X2: a line that starts with [event:] prints exactly one
    EventName, whose name is what follows the colon without the white
    space around it: trimming it again changes nothing.  The name is
    empty when only white space follows the colon. *)
Theorem event_line_prints_trimmed_name (rest : str) :
  _process_sse_line (py "event:" ++ rest) = emit (EventName (strip rest))
  /\ strip (strip rest) = strip rest
  /\ (forallb isspace rest = true -> strip rest = []).
Proof.
  split; [|split; [apply strip_idempotent|]].
  - unfold _process_sse_line.
    change (py "event:" ++ rest) with (ch "e" :: (py "vent:" ++ rest)).
    rewrite strip_nonblank by reflexivity.
    change (ch "e" :: (py "vent:" ++ rest)) with (py "event:" ++ rest).
    rewrite startswith_prefix. reflexivity.
  - intros H. apply strip_blank in H. destruct (strip rest); [reflexivity|discriminate].
Qed.

Lemma event_line_prints_trimmed_name_witness :
  forallb isspace (py "  ") = true
  /\ strip (py "  ") = []
  /\ _process_sse_line (py "event:  token ")
     = emit (EventName (py "token")).
Proof.
  split; [reflexivity|]. split.
  - apply (proj2 (proj2 (event_line_prints_trimmed_name (py "  ")))).
    reflexivity.
  - reflexivity.
Defined.

Lemma space_is_no_prefix (prefix : str) (c p : char) (rest : str) :
  isspace c = true -> isspace p = false ->
  startswith (p :: prefix) (c :: rest) = false.
Proof.
  intros Hc Hp. simpl. destruct (p =? c) eqn:E; [|reflexivity].
  apply N.eqb_eq in E. subst p. congruence.
Qed.

(** X3: the prefixes are looked for in the line as it is, not in the
    trimmed line.  A line that starts with a white-space character
    and is not blank is printed as a RawLine, whole, even when
    [event:], [data:] or a colon follows the white space. *)
Theorem indented_line_is_raw (c : char) (rest : str) :
  isspace c = true ->
  forallb isspace (c :: rest) = false ->
  _process_sse_line (c :: rest) = emit (RawLine (c :: rest)).
Proof.
  intros Hc Hb. apply strip_nonblank_iff in Hb.
  unfold _process_sse_line. rewrite Hb.
  change (py "event:") with (ch "e" :: py "vent:").
  change (py "data:") with (ch "d" :: py "ata:").
  change (py ":") with (ch ":" :: []).
  rewrite !space_is_no_prefix by (exact Hc || reflexivity).
  reflexivity.
Qed.

Lemma indented_line_is_raw_witness :
  isspace SP = true
  /\ forallb isspace (SP :: py "data: hello") = false
  /\ _process_sse_line (SP :: py "data: hello")
     = emit (RawLine (SP :: py "data: hello")).
Proof.
  split; [reflexivity|]. split; [reflexivity|].
  apply (indented_line_is_raw SP (py "data: hello")); reflexivity.
Defined.

(** X4: the Terminator is printed for two lines only, [data:[DONE]]
    and [data: [DONE]]: the payload has to be the six characters
    exactly, so that a second space before it, or anything after it,
    makes the line an ordinary data line. *)
Theorem terminator_lines (line : str) :
  _process_sse_line line = emit Terminator
  <-> line = py "data:[DONE]" \/ line = py "data: [DONE]".
Proof.
  split; [|intros [-> | ->]; reflexivity].
  unfold _process_sse_line.
  destruct (is_empty (strip line)); [discriminate|].
  destruct (startswith (py "event:") line); [discriminate|].
  destruct (startswith (py "data:") line) eqn:D.
  - destruct (Str.eqb (data_payload line) (py "[DONE]")) eqn:E.
    + intros _. apply eqb_eq in E. apply startswith_skipn in D.
      unfold data_payload in E. change (List.length (py "data:")) with 5%nat in D.
      destruct (startswith (py " ") (skipn 5 line)) eqn:S.
      * apply startswith_skipn in S. right.
        rewrite D, S. change (List.length (py " ")) with 1%nat.
        rewrite E. reflexivity.
      * left. rewrite D, E. reflexivity.
    + destruct (Json.loads _); [|discriminate].
      destruct (handle_json_data_cases j) as [-> | [s ->]]; discriminate.
  - destruct (startswith (py ":") line); discriminate.
Qed.

(** X5: what [_handle_json_data] does with a decoded value.  When
    it prints and returns, it has printed one structured payload of
    the value: a dict is shown by the first of [content], [message]
    and [error] that is one of its keys, or else as other data; a
    list or a str is shown by the [else] branch, and then none of the
    three names is an element of the list, or a part of the str.  It
    raises [TypeError] exactly on a value that is not a container, on
    a list with one of the three names as an element and on a str with
    one of them as a part, never on a dict.  It never raises
    [KeyError]: the membership test guards each subscript. *)
Theorem handle_json_data_dispatch (data : json) :
  (forall e,
      _handle_json_data data = emit e ->
      match data with
      | JObject d => e = StructuredPayload data (sub_dispatch d)
      | _ => e = StructuredPayload data Data
             /\ raises_type_error data = false
      end)
  /\ (_handle_json_data data = raise TypeError
      <-> match data with
          | JObject _ => False
          | _ => raises_type_error data = true
          end)
  /\ _handle_json_data data <> raise KeyError.
Proof.
  rewrite handle_json_data_outcome.
  destruct data as [| b | z | l | s | items | d].
  1-4: (split; [discriminate|]; split; [tauto | discriminate]).
  - destruct (raises_type_error (JString s)).
    + split; [discriminate|]. split; [tauto | discriminate].
    + split; [intros e H; inversion H; auto|].
      split; [split; discriminate | discriminate].
  - destruct (raises_type_error (JArray items)).
    + split; [discriminate|]. split; [tauto | discriminate].
    + split; [intros e H; inversion H; auto|].
      split; [split; discriminate | discriminate].
  - split; [intros e H; inversion H; reflexivity|].
    split; [split; [discriminate | contradiction] | discriminate].
Qed.

Lemma handle_json_data_dispatch_witness :
  _handle_json_data (JArray [JInt 1; JString (py "message")]) = raise TypeError
  /\ raises_type_error (JArray [JInt 1; JString (py "message")]) = true
  /\ _handle_json_data (JObject [(py "error", JInt 7); (py "message", JNull)])
     = emit (StructuredPayload
               (JObject [(py "error", JInt 7); (py "message", JNull)])
               (Message JNull)).
Proof.
  split; [reflexivity|]. split.
  - apply (proj1 (proj1 (proj2 (handle_json_data_dispatch
                                  (JArray [JInt 1; JString (py "message")]))))).
    reflexivity.
  - reflexivity.
Defined.


Lemma silent_lines_are_blank_or_comment_witness :
  startswith (py ":") (py ": keep-alive") = true
  /\ _process_sse_line (py ": keep-alive") = ret tt.
Proof.
  split; [reflexivity|].
  apply (proj2 (silent_lines_are_blank_or_comment (py ": keep-alive"))).
  right. reflexivity.
Defined.

Lemma terminator_lines_witness :
  _process_sse_line (py "data:  [DONE]") = emit (TextPayload (py " [DONE]"))
  /\ py "data:  [DONE]" <> py "data:[DONE]"
  /\ py "data:  [DONE]" <> py "data: [DONE]"
  /\ _process_sse_line (py "data:  [DONE]") <> emit Terminator.
Proof.
  split; [reflexivity|]. split; [discriminate|]. split; [discriminate|].
  intros H. apply (proj1 (terminator_lines (py "data:  [DONE]"))) in H.
  destruct H; discriminate.
Defined.

(** X19: what a printed event says of its line.  An EventName comes
    from a line that starts with [event:] and is what follows,
    trimmed; a Terminator, a TextPayload and a StructuredPayload come
    from a line that starts with [data:]: the text of a TextPayload is
    the unescaped payload and is not JSON, the value of a
    StructuredPayload is what the unescaped payload decodes to; a
    RawLine is the line itself, which is not blank and has none of
    the three prefixes; and no line prints the report of line 112. *)
Theorem printed_event_tells_the_line (line : str) (e : event) :
  _process_sse_line line = emit e ->
  match e with
  | EventName name =>
      startswith (py "event:") line = true /\ name = strip (skipn 6 line)
  | Terminator =>
      startswith (py "data:") line = true /\ data_payload line = py "[DONE]"
  | TextPayload t =>
      startswith (py "data:") line = true
      /\ data_payload line <> py "[DONE]"
      /\ t = unescape (data_payload line)
      /\ Json.loads t = None
  | StructuredPayload v _ =>
      startswith (py "data:") line = true
      /\ data_payload line <> py "[DONE]"
      /\ Json.loads (unescape (data_payload line)) = Some v
  | RawLine l =>
      l = line
      /\ forallb isspace line = false
      /\ startswith (py "event:") line = false
      /\ startswith (py "data:") line = false
      /\ startswith (py ":") line = false
  | StreamError _ => False
  end.
Proof.
  unfold _process_sse_line.
  destruct (is_empty (strip line)) eqn:B; [discriminate|].
  apply strip_nonblank_iff in B.
  destruct (startswith (py "event:") line) eqn:E.
  { intros H. inversion H. auto. }
  destruct (startswith (py "data:") line) eqn:D.
  { destruct (Str.eqb (data_payload line) (py "[DONE]")) eqn:T.
    - intros H. inversion H. apply eqb_eq in T. auto.
    - assert (N : data_payload line <> py "[DONE]").
      { intros N. apply eqb_eq in N. congruence. }
      destruct (Json.loads (unescape (data_payload line))) as [v|] eqn:J.
      + destruct (handle_json_data_cases v) as [-> | [s ->]]; [discriminate|].
        intros H. inversion H. auto.
      + intros H. inversion H. auto. }
  destruct (startswith (py ":") line) eqn:C; [discriminate|].
  intros H. inversion H. auto.
Qed.

Lemma printed_event_tells_the_line_witness :
  _process_sse_line (pyq "data: {'message': 'ok'}")
  = emit (StructuredPayload (JObject [(py "message", JString (py "ok"))])
                            (Message (JString (py "ok"))))
  /\ Json.loads (unescape (data_payload (pyq "data: {'message': 'ok'}")))
     = Some (JObject [(py "message", JString (py "ok"))]).
Proof.
  assert (H : _process_sse_line (pyq "data: {'message': 'ok'}")
              = emit (StructuredPayload
                        (JObject [(py "message", JString (py "ok"))])
                        (Message (JString (py "ok"))))) by reflexivity.
  split; [exact H|].
  exact (proj2 (proj2 (printed_event_tells_the_line _ _ H))).
Defined.

End MoreLines.

Section MoreStreams.
Import Str StrFacts.

Lemma process_sse_line_out (line : str) :
  decoded_only (fst (_process_sse_line line)) = true
  /\ (List.length (fst (_process_sse_line line)) <= 1)%nat.
Proof.
  unfold _process_sse_line.
  destruct (is_empty (strip line)); [simpl; auto|].
  destruct (startswith (py "event:") line); [simpl; auto|].
  destruct (startswith (py "data:") line).
  - destruct (Str.eqb _ _); [simpl; auto|].
    destruct (Json.loads _); [|simpl; auto].
    destruct (handle_json_data_cases j) as [-> | [s ->]]; simpl; auto.
  - destruct (startswith (py ":") line); simpl; auto.
Qed.

Lemma bind_out {A B} (m : M A) (k : A -> M B) :
  exists out, fst (bind m k) = fst m ++ out
              /\ (out = [] \/ exists a, snd m = Returned a /\ out = fst (k a)).
Proof.
  destruct m as [out1 [a|e]]; simpl.
  - destruct (k a) as [out2 r] eqn:E. exists out2. split; [reflexivity|].
    right. exists a. rewrite E. auto.
  - exists []. rewrite app_nil_r. auto.
Qed.

Lemma for_lines_out (lines : list str) :
  decoded_only (fst (for_lines lines)) = true
  /\ (List.length (fst (for_lines lines)) <= List.length lines)%nat.
Proof.
  induction lines as [|line lines [IH1 IH2]]; [simpl; auto|].
  simpl for_lines.
  destruct (process_sse_line_out (rstrip is_cr line)) as [H1 H2].
  destruct (bind_out (_process_sse_line (rstrip is_cr line))
                     (fun _ => for_lines lines)) as [out [-> [-> | [a [_ ->]]]]].
  - rewrite app_nil_r. split; [exact H1 | simpl; lia].
  - unfold decoded_only in *. rewrite forallb_app, H1, IH1, length_app.
    split; [reflexivity | simpl; lia].
Qed.

Lemma complete_lines_length (cur s : str) :
  List.length (complete_lines cur s) = count_occ N.eq_dec s LF.
Proof.
  revert cur. induction s as [|c s IH]; intros cur; [reflexivity|].
  simpl complete_lines. destruct (c =? LF) eqn:E.
  - apply N.eqb_eq in E. subst c. rewrite count_occ_cons_eq by reflexivity.
    simpl. rewrite IH. reflexivity.
  - apply N.eqb_neq in E. rewrite count_occ_cons_neq by exact E. apply IH.
Qed.

Lemma complete_lines_tail (cur s tail : str) :
  has LF tail = false -> complete_lines cur (s ++ tail) = complete_lines cur s.
Proof.
  intros H. revert cur. induction s as [|c s IH]; intros cur; simpl.
  - apply complete_lines_none. exact H.
  - destruct (c =? LF); [f_equal|]; apply IH.
Qed.

(** What [_parse_sse_stream] prints, from the complete lines of the
    input. *)
Lemma parse_sse_stream_lines (chunks : list str) :
  _parse_sse_stream chunks =
  fst (try_except (for_lines (complete_lines [] (List.concat chunks)))
                  (fun e => emit (StreamError e))).
Proof.
  unfold _parse_sse_stream.
  rewrite for_chunks_concat by reflexivity. simpl app.
  rewrite process_lines_spec, bind_assoc.
  destruct (for_lines _) as [out [[]|e]]; simpl; rewrite ?app_nil_r; reflexivity.
Qed.

(** X6: the report of line 112 is the last thing printed.  What
    [_parse_sse_stream] prints is a run of decoded events, followed by
    at most one StreamError, after which nothing else is printed. *)
Theorem stream_error_is_last (chunks : list str) :
  exists decoded,
    decoded_only decoded = true
    /\ (_parse_sse_stream chunks = decoded
        \/ exists e, _parse_sse_stream chunks = decoded ++ [StreamError e]).
Proof.
  rewrite parse_sse_stream_lines.
  destruct (for_lines_out (complete_lines [] (List.concat chunks))) as [H _].
  destruct (for_lines _) as [out [[]|e]]; simpl in *; exists out; eauto.
Qed.

(** X7: there is no flush at the end of the stream.  A last chunk
    without a newline adds nothing to what is printed: the text after
    the last newline of the response is never decoded, a final
    [data: [DONE]] included. *)
Theorem unterminated_tail_is_dropped (chunks : list str) (tail : str) :
  has LF tail = false ->
  _parse_sse_stream (chunks ++ [tail]) = _parse_sse_stream chunks.
Proof.
  intros H. rewrite !parse_sse_stream_lines.
  rewrite concat_app. simpl List.concat. rewrite app_nil_r.
  rewrite complete_lines_tail by exact H. reflexivity.
Qed.

Lemma unterminated_tail_is_dropped_witness :
  has LF (py "data: [DONE]") = false
  /\ _parse_sse_stream ([py "data: hi" ++ [LF]] ++ [py "data: [DONE]"])
     = _parse_sse_stream [py "data: hi" ++ [LF]]
  /\ _parse_sse_stream [py "data: hi" ++ [LF]] = [TextPayload (py "hi")].
Proof.
  split; [reflexivity|]. split; [|reflexivity].
  apply (unterminated_tail_is_dropped [py "data: hi" ++ [LF]] (py "data: [DONE]")).
  reflexivity.
Defined.

Lemma crlf_none (s : str) : has LF s = false -> crlf s = s.
Proof.
  induction s as [|c s IH]; [reflexivity|]. simpl.
  rewrite (N.eqb_sym LF c). destruct (c =? LF); simpl; [discriminate|].
  intros H. f_equal. apply IH. exact H.
Qed.

Lemma crlf_line (line rest : str) :
  has LF line = false ->
  crlf (line ++ LF :: rest) = (line ++ [CR]) ++ LF :: crlf rest.
Proof.
  intros H. unfold crlf. rewrite flat_map_app. fold (crlf line).
  rewrite crlf_none by exact H. simpl.
  rewrite <- app_assoc. reflexivity.
Qed.

Lemma process_lines_crlf (s : str) : process_lines (crlf s) = process_lines s.
Proof.
  induction s as [s H | line rest H IH] using buffer_ind.
  - rewrite crlf_none by exact H. reflexivity.
  - rewrite crlf_line by exact H.
    rewrite !process_lines_line; [| exact H |].
    + rewrite rstrip_dropped by reflexivity. rewrite IH. reflexivity.
    + rewrite has_app, H. reflexivity.
Qed.

Lemma crlf_concat (chunks : list str) :
  List.concat (map crlf chunks) = crlf (List.concat chunks).
Proof.
  induction chunks as [|c chunks IH]; [reflexivity|].
  simpl. rewrite IH. unfold crlf. rewrite flat_map_app. reflexivity.
Qed.

(** X8: a response with CRLF line ends is decoded like the same
    response with LF line ends.  Putting a carriage return before
    every newline of every chunk changes nothing of what is printed,
    and the loop leaves the same buffer. *)
Theorem crlf_stream_decodes_the_same :
  (forall s, process_lines (crlf s) = process_lines s)
  /\ (forall chunks,
        _parse_sse_stream (map crlf chunks) = _parse_sse_stream chunks).
Proof.
  split; [exact process_lines_crlf|].
  intros chunks. unfold _parse_sse_stream.
  rewrite !for_chunks_concat by reflexivity. simpl app.
  rewrite crlf_concat, process_lines_crlf. reflexivity.
Qed.

(** X9: at most one item is printed for each newline received, and
    one more for the report of an exception: what [_parse_sse_stream]
    prints is never longer than the number of newlines of the
    response plus one. *)
Theorem at_most_one_item_per_newline (chunks : list str) :
  (List.length (_parse_sse_stream chunks)
   <= S (count_occ N.eq_dec (List.concat chunks) LF))%nat.
Proof.
  rewrite parse_sse_stream_lines.
  destruct (for_lines_out (complete_lines [] (List.concat chunks))) as [_ H].
  rewrite complete_lines_length in H.
  destruct (for_lines _) as [out [[]|e]]; simpl in *;
    rewrite ?length_app; simpl; lia.
Qed.

Lemma for_chunks_app (a b : list str) (buffer : str) :
  for_chunks (a ++ b) buffer
  = bind (for_chunks a buffer) (for_chunks b).
Proof.
  revert buffer. induction a as [|c a IH]; intros buffer.
  - symmetry. apply (bind_ret_l buffer (for_chunks b)).
  - cbn [for_chunks app]. rewrite bind_assoc.
    apply bind_ext_on. intros out buffer' _. apply IH.
Qed.

Lemma for_chunks_out (chunks : list str) :
  decoded_only (fst (for_chunks chunks [])) = true.
Proof.
  rewrite for_chunks_concat by reflexivity. simpl app.
  rewrite process_lines_spec.
  destruct (for_lines_out (complete_lines [] (List.concat chunks))) as [H _].
  destruct (for_lines _) as [out [[]|e]]; simpl in *;
    rewrite ?app_nil_r; exact H.
Qed.

Lemma decoded_only_no_error (decoded : list event) (e : exn) :
  decoded_only (decoded ++ [StreamError e]) = false.
Proof.
  unfold decoded_only. rewrite forallb_app. simpl. apply andb_false_r.
Qed.

(** X20: what is printed for the first chunks does not depend on
    the chunks that follow.  When it ends with the report of an
    exception, the chunks that follow add nothing: the rest of the
    response is lost.  When it does not, what is printed for more
    chunks starts with it. *)
Theorem printed_prefix_is_stable (chunks more : list str) :
  (forall decoded e,
      _parse_sse_stream chunks = decoded ++ [StreamError e] ->
      _parse_sse_stream (chunks ++ more) = _parse_sse_stream chunks)
  /\ (decoded_only (_parse_sse_stream chunks) = true ->
      exists later,
        _parse_sse_stream (chunks ++ more) = _parse_sse_stream chunks ++ later).
Proof.
  unfold _parse_sse_stream. rewrite for_chunks_app.
  pose proof (for_chunks_out chunks) as D.
  destruct (for_chunks chunks []) as [out [buffer|x]]; simpl in *.
  - rewrite app_nil_r. split.
    + intros decoded e H. rewrite H, decoded_only_no_error in D. discriminate.
    + intros _. destruct (for_chunks more buffer) as [out' [b|y]]; simpl.
      * rewrite app_nil_r. eauto.
      * rewrite <- app_assoc. eauto.
  - split; [reflexivity|].
    intros H. rewrite decoded_only_no_error in H. discriminate.
Qed.

Lemma printed_prefix_is_stable_witness :
  _parse_sse_stream [py "data: 42" ++ [LF]] = [] ++ [StreamError TypeError]
  /\ _parse_sse_stream ([py "data: 42" ++ [LF]] ++ [py "data: more" ++ [LF]])
     = _parse_sse_stream [py "data: 42" ++ [LF]].
Proof.
  split; [reflexivity|].
  apply (proj1 (printed_prefix_is_stable [py "data: 42" ++ [LF]]
                  [py "data: more" ++ [LF]]) [] TypeError).
  reflexivity.
Defined.

End MoreStreams.

(** * Properties of the tester around the parser *)

Section MoreTester.
Import Str StrFacts.

(** X10: the base URL is kept without its trailing slashes, all of
    them: it never ends in a slash, the URL given is the one kept
    followed by slashes only, building a tester from the URL kept
    keeps it as it is, and any number of slashes added to the URL
    given leads to the same endpoint, with one slash before
    [copilot]. *)
Theorem base_url_loses_trailing_slashes (url : str) (auth_token : option str) :
  ends_in is_slash (base_url (__init__ url auth_token)) = false
  /\ (exists k, url = base_url (__init__ url auth_token) ++ repeat (ch "/") k)
  /\ __init__ (base_url (__init__ url auth_token)) auth_token
     = __init__ url auth_token
  /\ (forall k, copilot_url (__init__ (url ++ repeat (ch "/") k) auth_token)
                = copilot_url (__init__ url auth_token)).
Proof.
  simpl base_url. split; [apply rstrip_ends|]. split; [|split].
  - destruct (rstrip_split is_slash url) as [gone [E F]].
    exists (List.length gone). rewrite <- (forallb_is_repeat (ch "/") gone); [exact E|].
    rewrite forallb_forall in *. intros x Hx.
    specialize (F x Hx). unfold is_slash in F. rewrite N.eqb_sym. exact F.
  - unfold __init__. f_equal. apply rstrip_keep, rstrip_ends.
  - intros k. unfold copilot_url, __init__. simpl base_url.
    rewrite rstrip_repeat by reflexivity. reflexivity.
Qed.

(** X11: what the request carries.  [stream] is true, [save_chat]
    false and [include_history] true whatever is passed for
    [save_chat] and [include_history]; [session_id] and
    [system_prompt] are keys of the payload exactly when they are not
    empty; and there is no other key, so that [rag_db], [num_docs],
    [image] and [enhanced_prompt] are never sent. *)
Theorem payload_fields (a : arguments) :
  let payload := request_payload a in
  Dict.get (py "query") payload = Some (JString (query a))
  /\ Dict.get (py "model") payload = Some (JString (model a))
  /\ Dict.get (py "user_id") payload = Some (JString (user_id a))
  /\ Dict.get (py "stream") payload = Some (JBool true)
  /\ Dict.get (py "save_chat") payload = Some (JBool false)
  /\ Dict.get (py "include_history") payload = Some (JBool true)
  /\ Dict.get (py "session_id") payload
     = (if is_empty (session_id a) then None
        else Some (JString (session_id a)))
  /\ Dict.get (py "system_prompt") payload
     = match system_prompt a with
       | Some prompt => if is_empty prompt then None else Some (JString prompt)
       | None => None
       end
  /\ map fst payload
     = [py "query"; py "model"; py "user_id"; py "stream"; py "save_chat";
        py "include_history"]
       ++ (if is_empty (session_id a) then [] else [py "session_id"])
       ++ match system_prompt a with
          | Some prompt => if is_empty prompt then [] else [py "system_prompt"]
          | None => []
          end.
Proof.
  unfold request_payload.
  destruct (is_empty (session_id a));
    destruct (system_prompt a) as [prompt|];
    try destruct (is_empty prompt);
    repeat split; reflexivity.
Qed.

Lemma except_clauses_escape (x : raised) (out : list action) (y : raised) :
  except_clauses x = (out, Some y) -> y = OtherBaseException.
Proof. destruct x; simpl; intros H; inversion H; reflexivity. Qed.

Lemma parse_sse_response_escape (r : response) (out : list action) (y : raised) :
  parse_sse_response r = (out, Some y) ->
  isinstance_Exception y = false.
Proof.
  unfold parse_sse_response.
  destruct (for_chunks (chunks r) []) as [o [b|e]]; [|discriminate].
  destruct (failure r) as [x|]; [|discriminate].
  destruct (isinstance_Exception x) eqn:E; [discriminate|].
  intros H. inversion H. subst. exact E.
Qed.

Lemma test_streaming_endpoint_escape
  (self : StreamingTester) (a : arguments) (net : post_outcome)
  (out : list action) (x : raised) :
  test_streaming_endpoint self a net = (out, Some x) ->
  x = OtherBaseException.
Proof.
  unfold test_streaming_endpoint, and_then. intros H. inversion H as [[Ho Hx]].
  clear H Ho. revert Hx.
  destruct net as [r|y]; simpl.
  - destruct (negb (status_code r =? 200)%Z); simpl.
    + destruct (text r) as [t|y]; simpl; [discriminate|].
      destruct (except_clauses y) as [o p] eqn:E. simpl. intros ->.
      exact (except_clauses_escape _ _ _ E).
    + destruct (parse_sse_response r) as [o [y|]] eqn:P; simpl; [|discriminate].
      destruct (except_clauses y) as [o' p] eqn:E. simpl. intros ->.
      exact (except_clauses_escape _ _ _ E).
  - destruct (except_clauses y) as [o p] eqn:E. simpl. intros ->.
    exact (except_clauses_escape _ _ _ E).
Qed.

(** X12: [test_streaming_endpoint] lets no [Exception] and no
    [KeyboardInterrupt] out, whatever the network does: when it does
    not return, what it raises is neither. *)
Theorem test_streaming_endpoint_contains_errors
  (self : StreamingTester) (a : arguments) (net : post_outcome)
  (out : list action) (x : raised) :
  test_streaming_endpoint self a net = (out, Some x) ->
  isinstance_Exception x = false
  /\ isinstance_KeyboardInterrupt x = false
  /\ x = OtherBaseException.
Proof.
  intros H. apply test_streaming_endpoint_escape in H. subst x.
  repeat split.
Qed.

Lemma test_streaming_endpoint_contains_errors_witness :
  let self := __init__ (py "http://h/") None in
  let a := {| query := py "hi"; model := py "m"; user_id := py "u";
              session_id := []; save_chat := true; system_prompt := None;
              include_history := false; rag_db := None; num_docs := None;
              image := None; enhanced_prompt := None |} in
  let out := [Testing (py "http://h/copilot") (py "hi") (py "m");
              Post (py "http://h/copilot") (request_payload a) None] in
  test_streaming_endpoint self a (Fails OtherBaseException)
  = (out, Some OtherBaseException)
  /\ isinstance_Exception OtherBaseException = false
  /\ isinstance_KeyboardInterrupt OtherBaseException = false
  /\ OtherBaseException = OtherBaseException.
Proof.
  intros self a out. split; [reflexivity|].
  apply (test_streaming_endpoint_contains_errors
           self a (Fails OtherBaseException) out OtherBaseException).
  reflexivity.
Defined.

(** X13: when the status is not 200 the body is not decoded.  What
    the method does is the same for two answers with the same status
    and the same text, whatever their chunks are, and nothing it
    prints comes from [_parse_sse_stream]. *)
Theorem error_status_skips_the_stream
  (self : StreamingTester) (a : arguments) (r r' : response) :
  status_code r <> 200%Z ->
  status_code r' = status_code r ->
  text r' = text r ->
  test_streaming_endpoint self a (Responds r')
  = test_streaming_endpoint self a (Responds r)
  /\ forallb (fun act => match act with
                         | Connected | Decoded _ | StreamFailure _ => false
                         | _ => true
                         end)
             (fst (test_streaming_endpoint self a (Responds r))) = true.
Proof.
  intros Hs E1 E2. unfold test_streaming_endpoint. rewrite E1, E2.
  apply Z.eqb_neq in Hs. rewrite Hs. simpl negb. cbv iota.
  split; [reflexivity|].
  destruct (text r) as [t|x]; [reflexivity|].
  destruct x; reflexivity.
Qed.

Lemma error_status_skips_the_stream_witness :
  let a := {| query := py "hi"; model := py "m"; user_id := py "u";
              session_id := []; save_chat := false; system_prompt := None;
              include_history := true; rag_db := None; num_docs := None;
              image := None; enhanced_prompt := None |} in
  let r := {| status_code := 500; text := inl (py "down");
              chunks := [py "data: x" ++ [LF]]; failure := None |} in
  let r' := {| status_code := 500; text := inl (py "down");
               chunks := []; failure := Some ReadTimeout |} in
  status_code r <> 200%Z
  /\ status_code r' = status_code r
  /\ text r' = text r
  /\ test_streaming_endpoint (__init__ (py "http://h") None) a (Responds r')
     = test_streaming_endpoint (__init__ (py "http://h") None) a (Responds r).
Proof.
  split; [discriminate|]. split; [reflexivity|]. split; [reflexivity|].
  apply error_status_skips_the_stream; [discriminate | reflexivity | reflexivity].
Defined.

Lemma parse_sse_response_clean (r : response) :
  failure r = None ->
  parse_sse_response r = (map Decoded (_parse_sse_stream (chunks r)), None).
Proof.
  intros H. unfold parse_sse_response, _parse_sse_stream. rewrite H.
  destruct (for_chunks (chunks r) []) as [out [b|e]]; simpl;
    rewrite ?app_nil_r; reflexivity.
Qed.

(** X14: on a status 200 whose body ends without an exception, the
    method prints its heading, posts the request, prints that it is
    connected and then exactly what [_parse_sse_stream] prints for
    the chunks of the body, and returns. *)
Theorem ok_response_is_decoded
  (self : StreamingTester) (a : arguments) (r : response) :
  status_code r = 200%Z ->
  failure r = None ->
  test_streaming_endpoint self a (Responds r)
  = ([Testing (copilot_url self) (query a) (model a);
      Post (copilot_url self) (request_payload a) (authorization self);
      Connected]
     ++ map Decoded (_parse_sse_stream (chunks r)), None).
Proof.
  intros Hs Hf. unfold test_streaming_endpoint.
  rewrite Hs, (parse_sse_response_clean r Hf). reflexivity.
Qed.

Lemma ok_response_is_decoded_witness :
  let a := {| query := py "hi"; model := py "m"; user_id := py "u";
              session_id := py "s"; save_chat := false; system_prompt := None;
              include_history := true; rag_db := None; num_docs := None;
              image := None; enhanced_prompt := None |} in
  let r := {| status_code := 200; text := inl [];
              chunks := [py "data: he"; py "llo" ++ [LF]]; failure := None |} in
  status_code r = 200%Z
  /\ failure r = None
  /\ fst (test_streaming_endpoint (__init__ (py "http://h") None) a (Responds r))
     = [Testing (py "http://h/copilot") (py "hi") (py "m");
        Post (py "http://h/copilot") (request_payload a) None;
        Connected; Decoded (TextPayload (py "hello"))].
Proof.
  split; [reflexivity|]. split; [reflexivity|].
  rewrite ok_response_is_decoded; reflexivity.
Defined.

(** X15: an [Exception] of the transport while the body is read is
    caught by [_parse_sse_stream], not by the clauses of the caller.
    When no line has raised before it, the events decoded so far are
    printed, then the report of line 112, and the method returns: a
    time-out or a lost connection in mid-stream is not reported as
    one. *)
Theorem midstream_failure_is_a_parse_error
  (self : StreamingTester) (a : arguments) (r : response)
  (x : raised) (out : list event) (buffer : str) :
  status_code r = 200%Z ->
  failure r = Some x ->
  isinstance_Exception x = true ->
  for_chunks (chunks r) [] = (out, Returned buffer) ->
  _parse_sse_stream (chunks r) = out
  /\ test_streaming_endpoint self a (Responds r)
     = ([Testing (copilot_url self) (query a) (model a);
         Post (copilot_url self) (request_payload a) (authorization self);
         Connected]
        ++ map Decoded out ++ [StreamFailure x], None).
Proof.
  intros Hs Hf Hx Hc. split.
  - unfold _parse_sse_stream. rewrite Hc. simpl. rewrite app_nil_r. reflexivity.
  - unfold test_streaming_endpoint, parse_sse_response.
    rewrite Hs, Hc, Hf, Hx. reflexivity.
Qed.

Lemma midstream_failure_is_a_parse_error_witness :
  let a := {| query := py "hi"; model := py "m"; user_id := py "u";
              session_id := py "s"; save_chat := false; system_prompt := None;
              include_history := true; rag_db := None; num_docs := None;
              image := None; enhanced_prompt := None |} in
  let r := {| status_code := 200; text := inl [];
              chunks := [py "data: he" ++ [LF]; py "data: l"];
              failure := Some ReadTimeout |} in
  status_code r = 200%Z
  /\ failure r = Some ReadTimeout
  /\ isinstance_Exception ReadTimeout = true
  /\ for_chunks (chunks r) [] = ([TextPayload (py "he")], Returned (py "data: l"))
  /\ fst (test_streaming_endpoint (__init__ (py "http://h") None) a (Responds r))
     = [Testing (py "http://h/copilot") (py "hi") (py "m");
        Post (py "http://h/copilot") (request_payload a) None;
        Connected; Decoded (TextPayload (py "he")); StreamFailure ReadTimeout].
Proof.
  intros a r. do 4 (split; [reflexivity|]).
  rewrite (proj2 (midstream_failure_is_a_parse_error
                    (__init__ (py "http://h") None) a r ReadTimeout
                    [TextPayload (py "he")] (py "data: l")
                    eq_refl eq_refl eq_refl eq_refl)).
  reflexivity.
Defined.

End MoreTester.

(** * Properties of the interactive loop *)

Section MoreMain.
Import Str StrFacts.

Variable lower : str -> str.

#[local] Arguments posted : simpl never.

Lemma posted_app (a b : list action) : posted (a ++ b) = posted a ++ posted b.
Proof. apply flat_map_app. Qed.

Lemma posted_skip (a : action) (l : list action) :
  match a with Post _ _ _ => False | _ => True end ->
  posted (a :: l) = posted l.
Proof. destruct a; intros H; (reflexivity || contradiction). Qed.

Lemma posted_decoded (out : list event) : posted (map Decoded out) = [].
Proof. unfold posted. induction out; simpl; auto. Qed.

Lemma except_clauses_posted (x : raised) : posted (fst (except_clauses x)) = [].
Proof. destruct x; reflexivity. Qed.

Lemma parse_sse_response_posted (r : response) :
  posted (fst (parse_sse_response r)) = [].
Proof.
  unfold parse_sse_response.
  destruct (for_chunks (chunks r) []) as [out [b|e]]; simpl.
  - destruct (failure r) as [x|]; [destruct (isinstance_Exception x)|];
      simpl; rewrite ?posted_app, posted_decoded; reflexivity.
  - apply posted_decoded.
Qed.

(** One call posts one request. *)
Lemma test_streaming_endpoint_posted
  (self : StreamingTester) (a : arguments) (net : post_outcome) :
  posted (fst (test_streaming_endpoint self a net)) = [request_payload a].
Proof.
  unfold test_streaming_endpoint.
  destruct net as [r|x].
  - destruct (negb (status_code r =? 200)%Z).
    + destruct (text r); unfold and_then; cbn [fst];
        rewrite ?posted_app, ?except_clauses_posted; reflexivity.
    + pose proof (parse_sse_response_posted r) as H.
      destruct (parse_sse_response r) as [out [x|]]; unfold and_then;
        cbn [fst] in *;
        rewrite ?posted_app, ?H, ?except_clauses_posted; reflexivity.
  - unfold and_then; cbn [fst].
    rewrite ?posted_app, ?except_clauses_posted; reflexivity.
Qed.

Lemma except_clauses_survivable (x : raised) :
  survivable x = true -> snd (except_clauses x) = None.
Proof. destruct x; simpl; (reflexivity || discriminate). Qed.

Lemma test_streaming_endpoint_quiet
  (self : StreamingTester) (a : arguments) (net : post_outcome) :
  quiet net = true -> snd (test_streaming_endpoint self a net) = None.
Proof.
  unfold test_streaming_endpoint, and_then, quiet. simpl snd.
  destruct net as [r|x]; [|apply except_clauses_survivable].
  rewrite andb_true_iff. intros [Ht Hf].
  destruct (negb (status_code r =? 200)%Z); simpl.
  - destruct (text r); [reflexivity | apply except_clauses_survivable, Ht].
  - unfold parse_sse_response.
    destruct (for_chunks (chunks r) []) as [out [b|e]]; [|reflexivity].
    destruct (failure r) as [x|]; [|reflexivity].
    destruct (isinstance_Exception x); [reflexivity|].
    simpl. apply except_clauses_survivable, Hf.
Qed.

Lemma interactive_loop_posted
  (args : command_line) (tester : StreamingTester) (session : str)
  (keys : list typed) :
  all_quiet keys = true ->
  posted (fst (interactive_loop lower args tester session keys))
  = map (fun q => request_payload (call_arguments args session q))
        (sent_lines lower keys)
  /\ (snd (interactive_loop lower args tester session keys) = None
      \/ snd (interactive_loop lower args tester session keys)
         = Some KeyboardInterrupt).
Proof.
  induction keys as [|[q net|] keys IH]; [simpl; auto| |simpl; auto].
  cbn [all_quiet forallb]. rewrite andb_true_iff. intros [Hq Hk].
  fold (all_quiet keys) in Hk. specialize (IH Hk).
  cbn [interactive_loop sent_lines].
  destruct (quits lower q); [simpl; auto|].
  destruct (is_empty (strip q)) eqn:B.
  - apply strip_blank in B. rewrite B. unfold and_then. cbn [fst snd app].
    rewrite posted_skip by exact I. exact IH.
  - apply strip_nonblank_iff in B. rewrite B.
    pose proof (test_streaming_endpoint_posted
                  tester (call_arguments args session q) net) as P.
    pose proof (test_streaming_endpoint_quiet
                  tester (call_arguments args session q) net Hq) as Q.
    destruct (test_streaming_endpoint _ _ net) as [out p]. cbn [fst snd] in P, Q.
    subst p. unfold and_then. cbn [fst snd app].
    rewrite !posted_skip by exact I.
    rewrite !posted_app, P, posted_skip by exact I.
    destruct IH as [-> IH]. split; [reflexivity | exact IH].
Qed.

(** X16: the queries [main] sends are the lines typed, as they were
    typed.  When nothing but an [Exception] or a [KeyboardInterrupt]
    is raised while a line is sent, the requests posted are, in
    order, one for each line typed before the first quit word,
    interrupt at the prompt or end of input that is not blank, with
    the line untrimmed as its query; a failed request, or an
    interrupt while an answer streams, does not stop the next lines
    from being sent. *)
Theorem main_sends_the_typed_lines
  (args : command_line) (now : Z) (keys : list typed) :
  all_quiet keys = true ->
  posted (fst (main lower args now keys))
  = map (fun q => request_payload
                    (call_arguments args (py "test-session-" ++ str_of_int now) q))
        (sent_lines lower keys)
  /\ map (Dict.get (py "query")) (posted (fst (main lower args now keys)))
     = map (fun q => Some (JString q)) (sent_lines lower keys).
Proof.
  intros H.
  assert (E : posted (fst (main lower args now keys))
              = map (fun q => request_payload
                       (call_arguments args (py "test-session-" ++ str_of_int now) q))
                    (sent_lines lower keys)).
  { unfold main, and_then. cbn [fst app].
    rewrite posted_skip by exact I.
    destruct (interactive_loop_posted
                args (__init__ (arg_base_url args) (arg_auth_token args))
                (py "test-session-" ++ str_of_int now) keys H) as [P _].
    destruct (interactive_loop _ _ _ _ keys) as [out [x|]]; cbn [fst] in *.
    - destruct (isinstance_KeyboardInterrupt x); cbn [fst];
        rewrite ?posted_app, P; [apply app_nil_r | reflexivity].
    - rewrite posted_app, P. apply app_nil_r. }
  split; [exact E|]. rewrite E, map_map. apply map_ext. reflexivity.
Qed.

Lemma interactive_loop_escape
  (args : command_line) (tester : StreamingTester) (session : str)
  (keys : list typed) (x : raised) :
  snd (interactive_loop lower args tester session keys) = Some x ->
  x = KeyboardInterrupt \/ x = OtherBaseException.
Proof.
  induction keys as [|[q net|] keys IH]; cbn [interactive_loop];
    unfold and_then; cbn [fst snd]; [discriminate| |intros H; inversion H; auto].
  destruct (quits lower q); [discriminate|].
  destruct (is_empty (strip q)); [exact IH|].
  destruct (test_streaming_endpoint _ _ net) as [out [y|]] eqn:E; cbn [fst snd].
  - intros H. inversion H. subst y. right.
    exact (test_streaming_endpoint_escape _ _ _ _ _ E).
  - exact IH.
Qed.

Lemma interactive_loop_posted_in
  (args : command_line) (tester : StreamingTester) (session : str)
  (keys : list typed) (payload : Dict.dict) :
  In payload (posted (fst (interactive_loop lower args tester session keys))) ->
  exists q,
    payload = request_payload (call_arguments args session q)
    /\ quits lower q = false /\ forallb isspace q = false.
Proof.
  induction keys as [|[q net|] keys IH]; cbn [interactive_loop];
    unfold and_then; cbn [fst snd app]; rewrite ?posted_skip by exact I;
    try contradiction.
  destruct (quits lower q) eqn:Q; [contradiction|].
  destruct (is_empty (strip q)) eqn:B; [exact IH|].
  apply strip_nonblank_iff in B.
  pose proof (test_streaming_endpoint_posted
                tester (call_arguments args session q) net) as P.
  destruct (test_streaming_endpoint _ _ net) as [out [y|]]; cbn [fst snd] in *;
    rewrite ?posted_skip by exact I.
  - rewrite P. intros [<- | []]. eauto.
  - rewrite !posted_app, P, posted_skip by exact I.
    intros [<- | H]; [eauto | exact (IH H)].
Qed.

(** X17: how [main] ends.  It lets no [Exception] and no
    [KeyboardInterrupt] out; when it returns, the greeting is the
    first thing it printed and the farewell the last; and it does
    return whenever nothing but an [Exception] or a
    [KeyboardInterrupt] is raised while the lines are sent, however
    the input ends: quit word, end of input, or interrupt at the
    prompt. *)
Theorem main_ends_with_the_farewell
  (args : command_line) (now : Z) (keys : list typed) :
  (forall out x, main lower args now keys = (out, Some x) ->
                 x = OtherBaseException)
  /\ (forall out, main lower args now keys = (out, None) ->
                  exists mid, out = Greeting :: mid ++ [Bye])
  /\ (all_quiet keys = true -> snd (main lower args now keys) = None).
Proof.
  unfold main, and_then.
  pose proof (interactive_loop_escape
                args (__init__ (arg_base_url args) (arg_auth_token args))
                (py "test-session-" ++ str_of_int now) keys) as E.
  pose proof (interactive_loop_posted
                args (__init__ (arg_base_url args) (arg_auth_token args))
                (py "test-session-" ++ str_of_int now) keys) as Q.
  destruct (interactive_loop _ _ _ _ keys) as [o [y|]]; cbn [fst snd] in *.
  - destruct (E y eq_refl) as [-> | ->]; cbn [isinstance_KeyboardInterrupt fst snd].
    + split; [discriminate|]. split; [|reflexivity].
      intros out H. inversion H. eauto.
    + split; [intros out x H; inversion H; reflexivity|].
      split; [discriminate|].
      intros H. destruct (Q H) as [_ [H'|H']]; discriminate.
  - split; [discriminate|]. split; [|reflexivity].
    intros out H. inversion H. eauto.
Qed.

(** X18: every request of a run is of the same conversation.  Each
    payload [main] posts has a query that is not blank and is no quit
    word, the session id made from the time at which [main] started,
    the model and the user of the command line, no system prompt,
    [save_chat] false and [include_history] true. *)
Theorem every_request_of_a_run
  (args : command_line) (now : Z) (keys : list typed) (payload : Dict.dict) :
  In payload (posted (fst (main lower args now keys))) ->
  (exists q, Dict.get (py "query") payload = Some (JString q)
             /\ quits lower q = false /\ forallb isspace q = false)
  /\ Dict.get (py "session_id") payload
     = Some (JString (py "test-session-" ++ str_of_int now))
  /\ Dict.get (py "model") payload = Some (JString (arg_model args))
  /\ Dict.get (py "user_id") payload = Some (JString (arg_user_id args))
  /\ Dict.get (py "system_prompt") payload = None
  /\ Dict.get (py "save_chat") payload = Some (JBool false)
  /\ Dict.get (py "include_history") payload = Some (JBool true).
Proof.
  intros H.
  assert (H' : In payload
                 (posted (fst (interactive_loop lower args
                                 (__init__ (arg_base_url args) (arg_auth_token args))
                                 (py "test-session-" ++ str_of_int now) keys)))).
  { revert H. unfold main, and_then. cbn [fst app].
    rewrite posted_skip by exact I.
    destruct (interactive_loop _ _ _ _ keys) as [o [y|]]; cbn [fst];
      [destruct (isinstance_KeyboardInterrupt y); cbn [fst]|];
      rewrite ?posted_app; try (intros H; exact H);
      intros H; apply in_app_or in H; destruct H as [H | []]; exact H. }
  destruct (interactive_loop_posted_in _ _ _ _ _ H') as (q & -> & Q & B).
  split; [exists q; repeat split; assumption|].
  repeat split; reflexivity.
Qed.

End MoreMain.

Lemma main_sends_the_typed_lines_witness :
  let args := {| arg_base_url := py "http://h/"; arg_auth_token := None;
                 arg_model := py "m"; arg_user_id := py "u" |} in
  let keys := [Line (py " Hello ") (Fails ReadTimeout);
               Line (py "   ") (Fails ReadTimeout);
               Line (py "more")
                    (Responds {| status_code := 200; text := inl [];
                                 chunks := [py "data: x" ++ [LF]];
                                 failure := Some KeyboardInterrupt |});
               Line (py " QUIT ") (Fails ReadTimeout);
               Line (py "late") (Fails ReadTimeout)] in
  all_quiet keys = true
  /\ sent_lines lower_ascii keys = [py " Hello "; py "more"]
  /\ map (Dict.get (py "query")) (posted (fst (main lower_ascii args 17 keys)))
     = [Some (JString (py " Hello ")); Some (JString (py "more"))].
Proof.
  intros args keys. split; [reflexivity|]. split; [reflexivity|].
  rewrite (proj2 (main_sends_the_typed_lines lower_ascii args 17 keys eq_refl)).
  reflexivity.
Defined.

Lemma main_ends_with_the_farewell_witness :
  let args := {| arg_base_url := py "http://h/"; arg_auth_token := None;
                 arg_model := py "m"; arg_user_id := py "u" |} in
  let keys := [Line (py "hi") (Fails ConnectTimeout); CtrlC] in
  all_quiet keys = true
  /\ snd (main lower_ascii args 17 keys) = None
  /\ fst (main lower_ascii args 17 keys)
     = [Greeting; Prompt; StreamStart;
        Testing (py "http://h/copilot") (py "hi") (py "m");
        Post (py "http://h/copilot")
             (request_payload
                (call_arguments args (py "test-session-17") (py "hi")))
             None;
        TimedOut; StreamEnd; Prompt; Bye].
Proof.
  intros args keys. split; [reflexivity|]. split; [|reflexivity].
  apply (proj2 (proj2 (main_ends_with_the_farewell lower_ascii args 17 keys))).
  reflexivity.
Defined.

Lemma every_request_of_a_run_witness :
  let args := {| arg_base_url := py "http://h/"; arg_auth_token := None;
                 arg_model := py "m"; arg_user_id := py "u" |} in
  let keys := [Line (py "hi") (Fails ConnectTimeout)] in
  let payload := request_payload
                   (call_arguments args (py "test-session-17") (py "hi")) in
  In payload (posted (fst (main lower_ascii args 17 keys)))
  /\ Dict.get (py "session_id") payload = Some (JString (py "test-session-17")).
Proof.
  intros args keys payload.
  assert (H : In payload (posted (fst (main lower_ascii args 17 keys)))).
  { left. reflexivity. }
  split; [exact H|].
  exact (proj1 (proj2 (every_request_of_a_run lower_ascii args 17 keys payload H))).
Defined.
